(** * Context assembly and transcript interactions

    A shallow embedding of
      - [lib/shared/src/chat/transcript/interaction.ts] (class [Interaction]),
      - [lib/shared/src/chat/prompts/vscode-context/helpers.ts]
        (directory scans, workspace searches, test-file search patterns),
    together with the properties the specification states about them.

    Conventions.  An [async] function is a function into [Result]: [Ok] is a
    fulfilled promise, [Err] a rejected one; [await] is the bind of that
    monad and [try { .. } catch { .. }] is a match on the result.  Object
    state ([this]) is passed explicitly: a method returns its value together
    with the object after the call. *)

From Stdlib Require Import ZArith Ascii String Lia.
From stdpp Require Import base option list strings.

Local Open Scope Z_scope.

(** ** Promises and exceptions *)

Definition Error := string.

Inductive Result (A : Type) : Type :=
  | Ok (a : A)
  | Err (e : Error).
Arguments Ok {A} a.
Arguments Err {A} e.

(** [await]: continue with the value of a fulfilled promise, propagate a
    rejection. *)
Definition await {A B} (r : Result A) (k : A -> Result B) : Result B :=
  match r with
  | Ok a => k a
  | Err e => Err e
  end.

Notation "'let*' x ':=' r 'in' k" := (await r (fun x => k))
  (at level 10, x name, r at level 100, k at level 200).

Definition isOk {A} (r : Result A) : bool :=
  match r with Ok _ => true | Err _ => false end.

(** ** Shared data *)

(** [URI] of [vscode-uri]; only its [fsPath] is read by the code below. *)
Record URI := { fsPath : string }.

Inductive Speaker := human | assistant.

#[global] Instance Speaker_eq_dec : EqDecision Speaker.
Proof. solve_decision. Defined.

(** [ContextFile]: the fields the code destructures
    ([const { uri, repoName, fileName, source } = message.file]).  Optional
    fields are [option]s; [source] is compared against the string
    ['embeddings']. *)
Record ContextFile := {
  uri : option URI;
  repoName : option string;
  fileName : string;
  source : option string;
}.

Record ContextMessage := {
  speaker : Speaker;
  text : string;
  file : option ContextFile;
}.

(** JavaScript truthiness of an optional string: [undefined] and [''] are
    falsy. *)
Definition truthy (s : option string) : bool :=
  match s with
  | Some s => negb (String.eqb s "")
  | None => false
  end.

(** * The Interaction class *)

Module Interaction.

(** [PreciseContext], [ChatMetadata] and the body of an [InteractionMessage]
    are declared outside the files at hand; no operation below inspects
    them, so they are carried as uninterpreted payloads. *)
Definition PreciseContext := string.
Definition ChatMetadata := string.

Record InteractionMessage := {
  body : string;
  msgMetadata : option ChatMetadata;
}.

(** A [ChatMessage] is an [InteractionMessage] extended with the used
    context, as built by [toChat]. *)
Record ChatMessage := {
  chatMessage : InteractionMessage;
  contextFiles : list ContextFile;
  preciseContext : list PreciseContext;
}.

(** [InteractionJSON].  The legacy field [context?] is optional. *)
Record InteractionJSON := {
  json_humanMessage : InteractionMessage;
  json_assistantMessage : InteractionMessage;
  json_fullContext : list ContextMessage;
  json_usedContextFiles : list ContextFile;
  json_usedPreciseContext : list PreciseContext;
  json_timestamp : string;
  json_context : option (list ContextMessage);
}.

(** The private fields of the class.  [fullContext] is a promise; it is
    modelled by the value it settles to. *)
Record t := {
  humanMessage : InteractionMessage;
  assistantMessage : InteractionMessage;
  fullContext : Result (list ContextMessage);
  usedContextFiles : list ContextFile;
  usedPreciseContext : list PreciseContext;
  timestamp : string;
  metadata : option ChatMetadata;
}.

(** [new Interaction(humanMessage, assistantMessage, fullContext,
    usedContextFiles, usedPreciseContext, timestamp)] *)
Definition new (h a : InteractionMessage) (ctx : Result (list ContextMessage))
    (files : list ContextFile) (precise : list PreciseContext) (ts : string) : t :=
  {| humanMessage := h; assistantMessage := a; fullContext := ctx;
     usedContextFiles := files; usedPreciseContext := precise;
     timestamp := ts; metadata := None |}.

Definition set_fullContext (this : t) (ctx : Result (list ContextMessage)) : t :=
  {| humanMessage := humanMessage this; assistantMessage := assistantMessage this;
     fullContext := ctx;
     usedContextFiles := usedContextFiles this;
     usedPreciseContext := usedPreciseContext this;
     timestamp := timestamp this; metadata := metadata this |}.

(** The predicates of [../context-filter], which consult the ignore rules
    loaded elsewhere. *)
Class ContextFilter := {
  isCodyIgnoredFile : URI -> bool;
  isCodyIgnoredFilePath : string -> string -> bool;
}.

Section WithContextFilter.
Context `{ContextFilter}.

(** The two guarded [i++; continue] exits of the loop body, for a message
    that is a human message with a file:
    [uri && isCodyIgnoredFile(uri)], and, when [source === 'embeddings'],
    [repoName && isCodyIgnoredFilePath(repoName, fileName)]. *)
Definition ignoredFile (f : ContextFile) : bool :=
  match uri f with
  | Some u => isCodyIgnoredFile u
  | None => false
  end
  ||
  match source f with
  | Some src =>
      String.eqb src "embeddings"
      && truthy (repoName f)
      && match repoName f with
         | Some repo => isCodyIgnoredFilePath repo (fileName f)
         | None => false
         end
  | None => false
  end.

(** [message.speaker === 'human' && message.file] followed by one of the two
    exits. *)
Definition ignoredMessage (message : ContextMessage) : bool :=
  match speaker message, file message with
  | human, Some f => ignoredFile f
  | _, _ => false
  end.

(** The [for (let i = 0; i < contextMessages.length; i++)] loop of
    [removeCodyIgnoredFiles].  [contextMessages !! i = None] is the exit test
    [i >= contextMessages.length]; an ignored message takes the path
    [i++; continue], which advances the index twice.  The index grows in
    every iteration, so [length contextMessages] iterations always reach the
    exit test. *)
Fixpoint removeLoop (fuel : nat) (contextMessages : list ContextMessage)
    (i : nat) (newMessages : list ContextMessage) : list ContextMessage :=
  match fuel with
  | O => newMessages
  | S fuel =>
      match contextMessages !! i with
      | None => newMessages
      | Some message =>
          if ignoredMessage message
          then removeLoop fuel contextMessages (S (S i)) newMessages
          else removeLoop fuel contextMessages (S i) (newMessages ++ [message])
      end
  end.

(** The loop started as the code starts it: [i = 0], [newMessages = []]. *)
Definition filterIgnored (contextMessages : list ContextMessage) : list ContextMessage :=
  removeLoop (length contextMessages) contextMessages 0 [].

(** [private async removeCodyIgnoredFiles()]: awaits the context, filters it
    and stores the filtered list back into [this.fullContext]. *)
Definition removeCodyIgnoredFiles (this : t) : Result (list ContextMessage) * t :=
  match fullContext this with
  | Err e => (Err e, this)
  | Ok contextMessages =>
      let newMessages := filterIgnored contextMessages in
      (Ok newMessages, set_fullContext this (Ok newMessages))
  end.

(** [{ ...msg }]: a shallow copy has the same fields. *)
Definition copyMessage (msg : ContextMessage) : ContextMessage :=
  {| speaker := speaker msg; text := text msg; file := file msg |}.

Definition getFullContext (this : t) : Result (list ContextMessage) * t :=
  let '(r, this) := removeCodyIgnoredFiles this in
  (let* msgs := r in Ok (copyMessage <$> msgs), this).

Definition hasContext (this : t) : Result bool * t :=
  let '(r, this) := removeCodyIgnoredFiles this in
  (let* contextMessages := r in Ok (bool_decide (0 < length contextMessages)%nat), this).

Definition withMetadata (m : InteractionMessage) (md : option ChatMetadata) : InteractionMessage :=
  {| body := body m; msgMetadata := md |}.

Definition setMetadata (md : ChatMetadata) (this : t) : t :=
  {| humanMessage := withMetadata (humanMessage this) (Some md);
     assistantMessage := withMetadata (assistantMessage this) (Some md);
     fullContext := fullContext this;
     usedContextFiles := usedContextFiles this;
     usedPreciseContext := usedPreciseContext this;
     timestamp := timestamp this; metadata := Some md |}.

Definition getAssistantMessage (this : t) : InteractionMessage := assistantMessage this.
Definition getHumanMessage (this : t) : InteractionMessage := humanMessage this.

Definition setAssistantMessage (a : InteractionMessage) (this : t) : t :=
  {| humanMessage := humanMessage this;
     assistantMessage := withMetadata a (metadata this);
     fullContext := fullContext this;
     usedContextFiles := usedContextFiles this;
     usedPreciseContext := usedPreciseContext this;
     timestamp := timestamp this; metadata := metadata this |}.

Definition setUsedContext (files : list ContextFile) (precise : list PreciseContext)
    (this : t) : t :=
  {| humanMessage := humanMessage this; assistantMessage := assistantMessage this;
     fullContext := fullContext this;
     usedContextFiles := files; usedPreciseContext := precise;
     timestamp := timestamp this; metadata := metadata this |}.

Definition toChat (this : t) : list ChatMessage :=
  [ {| chatMessage := humanMessage this;
       contextFiles := usedContextFiles this;
       preciseContext := usedPreciseContext this |};
    {| chatMessage := assistantMessage this;
       contextFiles := usedContextFiles this;
       preciseContext := usedPreciseContext this |} ].

Definition toChatPromise (this : t) : Result (list ChatMessage) :=
  let* _ctx := fullContext this in Ok (toChat this).

(** [toJSON]: the object literal has six properties; [context] is not among
    them. *)
Definition toJSON (this : t) : Result InteractionJSON :=
  let* ctx := fullContext this in
  Ok {| json_humanMessage := humanMessage this;
          json_assistantMessage := assistantMessage this;
          json_fullContext := ctx;
          json_usedContextFiles := usedContextFiles this;
          json_usedPreciseContext := usedPreciseContext this;
          json_timestamp := timestamp this;
          json_context := None |}.

(** The public methods, as calls a client can make in any order. *)
Inductive Call :=
  | CallSetMetadata (md : ChatMetadata)
  | CallGetAssistantMessage
  | CallSetAssistantMessage (a : InteractionMessage)
  | CallGetHumanMessage
  | CallGetFullContext
  | CallHasContext
  | CallSetUsedContext (files : list ContextFile) (precise : list PreciseContext)
  | CallToChat
  | CallToChatPromise
  | CallToJSON.

(** The object after one call (the returned value is dropped). *)
Definition after (c : Call) (this : t) : t :=
  match c with
  | CallSetMetadata md => setMetadata md this
  | CallSetAssistantMessage a => setAssistantMessage a this
  | CallGetFullContext => snd (getFullContext this)
  | CallHasContext => snd (hasContext this)
  | CallSetUsedContext files precise => setUsedContext files precise this
  | CallGetAssistantMessage | CallGetHumanMessage
  | CallToChat | CallToChatPromise | CallToJSON => this
  end.

Definition afterAll (cs : list Call) (this : t) : t :=
  foldl (fun this c => after c this) this cs.

Definition readsContext (c : Call) : bool :=
  match c with
  | CallGetFullContext | CallHasContext => true
  | _ => false
  end.

(** ** The filter in the words of the specification

    Walk the sequence; a human fragment with file info whose URI is ignored,
    or whose source is "embeddings" and whose repo-relative path is ignored,
    is dropped together with the one element after it; every other fragment
    is kept, in order. *)
Definition droppedBySpec (m : ContextMessage) : bool :=
  bool_decide (speaker m = human) &&
  match file m with
  | None => false
  | Some f =>
      match uri f with Some u => isCodyIgnoredFile u | None => false end
      || (bool_decide (source f = Some "embeddings")
          && match repoName f with
             | Some repo => negb (String.eqb repo "") && isCodyIgnoredFilePath repo (fileName f)
             | None => false
             end)
  end.

Fixpoint walkDropping (l : list ContextMessage) : list ContextMessage :=
  match l with
  | [] => []
  | m :: rest =>
      if droppedBySpec m
      then match rest with
           | [] => []
           | _ :: rest' => walkDropping rest'
           end
      else m :: walkDropping rest
  end.

End WithContextFilter.

(** ** What the specification says of [toJSON]

    The raw resolved fragments in [fullContext], and a legacy field
    [context] mirroring it, whatever was called before. *)
Definition toJSON_raw_and_legacy `{ContextFilter} (this0 : t) (raw : list ContextMessage)
    (cs : list Call) : Prop :=
  exists j, toJSON (afterAll cs this0) = Ok j
    /\ json_fullContext j = raw
    /\ json_context j = Some (json_fullContext j).

(** ** A concrete rule set and transcript turn, for the examples *)

Definition envFilesIgnored : ContextFilter :=
  {| isCodyIgnoredFile u := String.eqb (fsPath u) "/repo/secret.env";
     isCodyIgnoredFilePath repo path := String.eqb path "secret.env" |}.

Definition fragmentPair (path : string) (content : string) : list ContextMessage :=
  [ {| speaker := human; text := content;
       file := Some {| uri := Some {| fsPath := path |}; repoName := None;
                       fileName := path; source := Some "user" |} |};
    {| speaker := assistant; text := "Ok."; file := None |} ].

Definition ignoredPair : list ContextMessage := fragmentPair "/repo/secret.env" "TOKEN=1".
Definition allowedPair : list ContextMessage := fragmentPair "/repo/main.ts" "main()".

Definition question : InteractionMessage := {| body := "why?"; msgMetadata := None |}.
Definition answer : InteractionMessage := {| body := "because"; msgMetadata := None |}.

Definition turn (ctx : list ContextMessage) : t :=
  new question answer (Ok ctx) [] [] "2024-01-01T00:00:00.000Z".

End Interaction.

(** * Strings as the code uses them *)

Module Str.

Definition chars (s : string) : list ascii := String.list_ascii_of_string s.
Definition ofChars (l : list ascii) : string := String.string_of_list_ascii l.

(** [s.startsWith(p)] *)
Fixpoint startsWithChars (s p : list ascii) : bool :=
  match p, s with
  | [], _ => true
  | _ :: _, [] => false
  | c :: p', d :: s' => Ascii.eqb c d && startsWithChars s' p'
  end.

Definition startsWith (s p : string) : bool := startsWithChars (chars s) (chars p).

(** [s.endsWith(p)] *)
Definition endsWith (s p : string) : bool :=
  startsWithChars (rev (chars s)) (rev (chars p)).

(** [s.split(sep)] for a one-character separator: never empty, [""] splits
    into [[""]]. *)
Fixpoint splitChars (sep : ascii) (s : list ascii) : list (list ascii) :=
  match s with
  | [] => [[]]
  | c :: s' =>
      if Ascii.eqb c sep then [] :: splitChars sep s'
      else match splitChars sep s' with
           | seg :: segs => (c :: seg) :: segs
           | [] => [[c]]
           end
  end.

Definition split (sep : ascii) (s : string) : list string :=
  ofChars <$> splitChars sep (chars s).

End Str.

(** * Glob patterns

    The pattern language of [vscode.GlobPattern], as its documentation
    describes it: [*] matches zero or more characters in a path segment, [?]
    one character in a path segment, [**] any number of path segments,
    including none, and [{a,b}] groups alternatives.  Character ranges
    ([[...]]) occur in no pattern built here and are not interpreted. *)

Module Glob.

(** Alternatives of one level of braces, written out:
    [x{a,b}y] stands for [xay] and [xby]. *)
Fixpoint expand (open : option (list (list ascii) * list ascii)) (p : list ascii)
    : list (list ascii) :=
  match p with
  | [] =>
      match open with
      | None => [[]]
      | Some _ => []
      end
  | c :: p' =>
      match open with
      | None =>
          if Ascii.eqb c "{" then expand (Some ([], [])) p'
          else cons c <$> expand None p'
      | Some (alts, cur) =>
          if Ascii.eqb c "," then expand (Some (alts ++ [cur], [])) p'
          else if Ascii.eqb c "}" then
            let tails := expand None p' in
            alt ← alts ++ [cur]; (app alt <$> tails)
          else expand (Some (alts, cur ++ [c])) p'
      end
  end.

(** One path segment against one segment pattern. *)
Fixpoint segmentMatches (p : list ascii) : list ascii -> bool :=
  match p with
  | [] => fun s => match s with [] => true | _ => false end
  | c :: p' =>
      if Ascii.eqb c "*" then
        fix star (s : list ascii) : bool :=
          segmentMatches p' s
          || match s with
             | [] => false
             | _ :: s' => star s'
             end
      else if Ascii.eqb c "?" then
        fun s => match s with [] => false | _ :: s' => segmentMatches p' s' end
      else
        fun s => match s with [] => false | d :: s' => Ascii.eqb c d && segmentMatches p' s' end
  end.

Definition isGlobStar (p : list ascii) : bool :=
  match p with
  | [a; b] => Ascii.eqb a "*" && Ascii.eqb b "*"
  | _ => false
  end.

(** A path, segment by segment, against a pattern, segment by segment. *)
Fixpoint segmentsMatch (ps : list (list ascii)) : list (list ascii) -> bool :=
  match ps with
  | [] => fun path => match path with [] => true | _ => false end
  | p :: ps' =>
      if isGlobStar p then
        fix globstar (path : list (list ascii)) : bool :=
          segmentsMatch ps' path
          || match path with
             | [] => false
             | _ :: path' => globstar path'
             end
      else
        fun path =>
          match path with
          | [] => false
          | s :: path' => segmentMatches p s && segmentsMatch ps' path'
          end
  end.

Definition segments (s : list ascii) : list (list ascii) := Str.splitChars "/" s.

Definition matches (pattern path : string) : bool :=
  existsb (fun alt => segmentsMatch (segments alt) (segments (Str.chars path)))
          (expand None (Str.chars pattern)).

End Glob.

(** * Node's [path.basename] and [path.extname] (POSIX flavour)

    Written from Node's documentation: the extension runs from the last ['.']
    of the last path segment to its end, and is empty when there is no
    ['.'] or when the only ['.'] is the segment's first character;
    [basename(p, ext)] is the last segment with a trailing [ext] removed,
    unless the segment is [ext] itself. *)

Module Path.

Definition lastSegment (p : string) : list ascii :=
  default [] (last (Str.splitChars "/" (Str.chars p))).

(** The characters after the last ['.'], and those before it; [None]
    without a ['.']. *)
Fixpoint cutAtLastDot (s : list ascii) : option (list ascii * list ascii) :=
  match s with
  | [] => None
  | c :: s' =>
      match cutAtLastDot s' with
      | Some (stem, ext) => Some (c :: stem, ext)
      | None => if Ascii.eqb c "." then Some ([], s') else None
      end
  end.

Definition extname (p : string) : string :=
  let seg := lastSegment p in
  match cutAtLastDot seg with
  | Some (stem, ext) =>
      match stem with
      | [] => ""
      | _ => if String.eqb (Str.ofChars seg) ".." then "" else Str.ofChars ("."%char :: ext)
      end
  | None => ""
  end.

Definition basename (p : string) (ext : option string) : string :=
  let seg := lastSegment p in
  match ext with
  | None => Str.ofChars seg
  | Some ext =>
      let e := Str.chars ext in
      if Str.startsWithChars (rev seg) (rev e) && negb (bool_decide (seg = e))
      then Str.ofChars (take (length seg - length e) seg)
      else Str.ofChars seg
  end.

End Path.

(** * The helpers of the VS Code context *)

Module Helpers.

Inductive FileType := Unknown | File | Directory | SymbolicLink.

(** [vscode.FileStat]; only [size] is read. *)
Record FileStat := { size : Z }.

(** A [CancellationToken] whose source is cancelled by a timer:
    [cancelledAfter] is the delay of that timer, in milliseconds. *)
Record CancellationToken := { cancelledAfter : Z }.

(** The part of the [vscode] API the helpers call.  File-system calls and
    searches are promises and may reject; [findFiles] may also resolve to
    [undefined].  [searchTime] is not an API call: it is the time, in
    milliseconds, the search with these arguments needs when nobody cancels
    it, and lets one say that a search exceeds a deadline. *)
Class Workspace := {
  joinPath : URI -> string -> URI;
  asRelativePath : string -> string;
  stat : URI -> Result FileStat;
  readFile : URI -> Result (list Byte.byte);
  decodeUtf8 : list Byte.byte -> string;
  findFiles : string -> string -> Z -> CancellationToken -> Result (option (list URI));
  searchTime : string -> string -> Z -> Z;
}.

(** What the helpers import from [prompt/constants], [prompt/templates],
    [prompt/truncation] and [../utils]. *)
Class Prompt := {
  MAX_CURRENT_FILE_TOKENS : Z;
  truncateText : string -> Z -> string;
  populateContextTemplateFromText : string -> string -> string -> string;
  populateCodeContextTemplate : string -> string -> string;
  isValidTestFileName : string -> bool;
  acknowledgement : string;
}.

Section WithWorkspace.
Context `{Workspace} `{Prompt}.

(** Modelled from the spec: [getContextMessageWithResponse] of
    [codebase-context/messages] is not among the files at hand.  A fragment
    is a human/assistant pair, "the human half carrying the source
    reference, the assistant half carrying an acknowledgement". *)
Definition getContextMessageWithResponse (text : string) (file : ContextFile)
    : list ContextMessage :=
  [ {| speaker := human; text := text; file := Some file |};
    {| speaker := assistant; text := acknowledgement; file := None |} ].

(** The object literal [{ fileName }]. *)
Definition fileNamed (fileName : string) : ContextFile :=
  {| uri := None; repoName := None; fileName := fileName; source := None |}.

(** [try { .. } catch { .. }] *)
Definition tryCatch {A} (body : Result A) (handler : Error -> Result A) : Result A :=
  match body with
  | Ok a => Ok a
  | Err e => handler e
  end.

Definition decodeVSCodeTextDoc (fileUri : URI) : Result string :=
  tryCatch
    (let* bytes := readFile fileUri in
     let decoded := decodeUtf8 bytes in
     Ok decoded)
    (fun _ => Ok "").

Definition createVSCodeRelativePath (filePath : string) : string :=
  asRelativePath filePath.

Definition templateText : string := "Codebase context from file path {fileName}: ".

(** The [try] block shared by the two directory scans: the messages to push
    for one file, or the rejection the [catch] receives. *)
Definition fileContextMessage (fileUri : URI) (fileName : string)
    : Result (list ContextMessage) :=
  let* decoded := decodeVSCodeTextDoc fileUri in
  let truncatedContent := truncateText decoded MAX_CURRENT_FILE_TOKENS in
  let contextMessage :=
    getContextMessageWithResponse
      (populateContextTemplateFromText templateText truncatedContent fileName)
      (fileNamed fileName) in
  Ok contextMessage.

(** [contextMessages.push(...contextMessage)] inside [try], with the [catch]
    that only logs. *)
Definition pushFileContext (contextMessages : list ContextMessage) (fileUri : URI)
    (fileName : string) : list ContextMessage :=
  match fileContextMessage fileUri fileName with
  | Ok contextMessage => contextMessages ++ contextMessage
  | Err _ => contextMessages
  end.

(** [currentFileName.split('/').pop()?.split('.').shift() || ''] *)
Definition fileNameWithoutExtOf (currentFileName : string) : string :=
  let filePathParts := Str.split "/" currentFileName in
  match last filePathParts with
  | Some seg => default "" (head (Str.split "." seg))
  | None => ""
  end.

(** The [for (const file of filesInDir)] loop of
    [getCurrentDirFilteredContext]; [contextMessages] is the array built so
    far.  [stat] is awaited outside the [try], so its rejection rejects the
    whole call. *)
Fixpoint currentDirLoop (dirUri : URI) (currentFileName fileNameWithoutExt : string)
    (maxFiles : Z) (filesInDir : list (string * FileType))
    (contextMessages : list ContextMessage) : Result (list ContextMessage) :=
  match filesInDir with
  | [] => Ok contextMessages
  | file :: rest =>
      let continue := currentDirLoop dirUri currentFileName fileNameWithoutExt maxFiles rest in
      let fileUri := joinPath dirUri file.1 in
      let fileName := createVSCodeRelativePath (fsPath fileUri) in
      let* fileSize := stat fileUri in
      if (size fileSize >? 1000000) || (size fileSize =? 0) then
        continue contextMessages
      else if String.eqb file.1 currentFileName then
        continue contextMessages
      else
        let contextMessages := pushFileContext contextMessages fileUri fileName in
        if Str.startsWith file.1 fileNameWithoutExt || Str.endsWith file.1 fileNameWithoutExt then
          Ok contextMessages
        else if Z.of_nat (length contextMessages) >=? maxFiles * 2 then
          Ok contextMessages
        else
          continue contextMessages
  end.

Definition getCurrentDirFilteredContext (dirUri : URI) (filesInDir : list (string * FileType))
    (currentFileName : string) (maxFiles : Z) : Result (list ContextMessage) :=
  currentDirLoop dirUri currentFileName (fileNameWithoutExtOf currentFileName)
    maxFiles filesInDir [].

(** The loop of [getDirContextMessages]. *)
Fixpoint dirLoop (dirUri : URI) (filesInDir : list (string * FileType))
    (contextMessages : list ContextMessage) : Result (list ContextMessage) :=
  match filesInDir with
  | [] => Ok contextMessages
  | file :: rest =>
      let fileUri := joinPath dirUri file.1 in
      let fileName := createVSCodeRelativePath (fsPath fileUri) in
      let* fileSize := stat fileUri in
      if (size fileSize >? 1000000) || (size fileSize =? 0) then
        dirLoop dirUri rest contextMessages
      else
        dirLoop dirUri rest (pushFileContext contextMessages fileUri fileName)
  end.

Definition getDirContextMessages (dirUri : URI) (filesInDir : list (string * FileType))
    : Result (list ContextMessage) :=
  dirLoop dirUri filesInDir [].

(** ** Workspace searches and test files *)

Definition defaultExcludePattern : string := "**/{.*,node_modules,snap*}/**".

(** [excludePattern || fallback] *)
Definition excludedOr (excludePattern : option string) (fallback : string) : string :=
  match excludePattern with
  | Some e => if truthy excludePattern then e else fallback
  | None => fallback
  end.

(** [findVSCodeFiles(globalPattern, excludePattern?, maxResults = 3)].
    [excludePattern || '...'] takes the default for [undefined] and for
    ['']; the token handed to [findFiles] is cancelled by
    [setTimeout(.., 20000)]; [files || []] turns [undefined] into [[]]. *)
Definition findVSCodeFiles (globalPattern : string) (excludePattern : option string)
    (maxResults : Z) : Result (list URI) :=
  tryCatch
    (let excluded := excludedOr excludePattern defaultExcludePattern in
     let token := {| cancelledAfter := 20000 |} in
     let* files := findFiles globalPattern excluded maxResults token in
     Ok (default [] files))
    (fun _ => Ok []).

Definition getFilePathContext (filePath : string) : Result string :=
  let fileUri := {| fsPath := filePath |} in
  tryCatch
    (let* decoded := decodeVSCodeTextDoc fileUri in
     Ok decoded)
    (fun _ => Ok "").

Definition createFileContextResponseMessage (context filePath : string)
    : list ContextMessage :=
  let fileName := createVSCodeRelativePath filePath in
  let truncatedContent := truncateText context MAX_CURRENT_FILE_TOKENS in
  getContextMessageWithResponse
    (populateCodeContextTemplate truncatedContent fileName) (fileNamed fileName).

(** The loop of [getContextMessageFromFiles]. *)
Fixpoint contextFromFilesLoop (files : list URI) (contextMessages : list ContextMessage)
    : Result (list ContextMessage) :=
  match files with
  | [] => Ok contextMessages
  | file :: rest =>
      let* context := getFilePathContext (fsPath file) in
      contextFromFilesLoop rest
        (contextMessages ++ createFileContextResponseMessage context (fsPath file))
  end.

Definition getContextMessageFromFiles (files : list URI) : Result (list ContextMessage) :=
  contextFromFilesLoop files [].

Definition createVSCodeTestSearchPattern (fsPath : string) (allTestFiles : option bool)
    : string :=
  let fileExtension := Path.extname fsPath in
  let fileName := Path.basename fsPath (Some fileExtension) in
  let root := "**" in
  let defaultTestFilePattern := "/*test*" +:+ fileExtension in
  let currentTestFilePattern :=
    "/*{test_" +:+ fileName +:+ "," +:+ fileName +:+ "_test,test." +:+ fileName
    +:+ "," +:+ fileName +:+ ".test," +:+ fileName +:+ "Test}" +:+ fileExtension in
  if default false allTestFiles then root +:+ defaultTestFilePattern
  else root +:+ currentTestFilePattern.

(** [isUnitTest ? '**/*{e2e,integration,node_modules}*/**' : undefined], the
    first line of both test-file searches. *)
Definition testExcludePattern (isUnitTest : bool) : option string :=
  if isUnitTest then Some "**/*{e2e,integration,node_modules}*/**" else None.

Definition getCurrentTestFileContext (fileName : string) (isUnitTest : bool)
    : Result (list ContextMessage) :=
  let excludePattern := testExcludePattern isUnitTest in
  let searchPattern := createVSCodeTestSearchPattern fileName None in
  let* foundFiles := findVSCodeFiles searchPattern excludePattern 5 in
  let testFile := List.find (fun file => isValidTestFileName (fsPath file)) foundFiles in
  match testFile with
  | Some testFile =>
      let* context := getFilePathContext (fsPath testFile) in
      Ok (createFileContextResponseMessage context (fsPath testFile))
  | None => Ok []
  end.

Definition getCodebaseTestFilesContext (fileName : string) (isUnitTest : bool)
    : Result (list ContextMessage) :=
  let excludePattern := testExcludePattern isUnitTest in
  let testFilesPattern := createVSCodeTestSearchPattern fileName (Some true) in
  let* testFilesMatches := findVSCodeFiles testFilesPattern excludePattern 5 in
  let filteredTestFiles :=
    List.filter (fun file => isValidTestFileName (fsPath file)) testFilesMatches in
  getContextMessageFromFiles filteredTestFiles.

Definition getEditorTestContext (fileName : string) (isUnitTestRequest : bool)
    : Result (list ContextMessage) :=
  tryCatch
    (let* currentTestFile := getCurrentTestFileContext fileName isUnitTestRequest in
     if bool_decide (length currentTestFile = 0%nat) then
       let* codebaseTestFiles := getCodebaseTestFilesContext fileName isUnitTestRequest in
       Ok (codebaseTestFiles ++ currentTestFile)
     else Ok currentTestFile)
    (fun _ => Ok []).

(** ** Notions used to state the properties of the scans *)

(** The size test passed: [!(fileSize.size > 1000000 || !fileSize.size)]. *)
Definition sizeAccepted (dirUri : URI) (file : string * FileType) : bool :=
  match stat (joinPath dirUri file.1) with
  | Ok fileSize => negb ((size fileSize >? 1000000) || (size fileSize =? 0))
  | Err _ => false
  end.

(** The messages a scan pushes for one candidate that it reads. *)
Definition fragmentsOf (dirUri : URI) (file : string * FileType) : list ContextMessage :=
  let fileUri := joinPath dirUri file.1 in
  pushFileContext [] fileUri (createVSCodeRelativePath (fsPath fileUri)).

(** The early-exit test of [getCurrentDirFilteredContext]. *)
Definition matchesCurrentFile (name currentFileName : string) : bool :=
  Str.startsWith name (fileNameWithoutExtOf currentFileName)
  || Str.endsWith name (fileNameWithoutExtOf currentFileName).

(** The candidates [getCurrentDirFilteredContext] reads, given the number
    [held] of messages collected so far: those that pass the size test and
    are not the current file, up to and including the first one after which
    the early-exit test or the cap holds.  Whether a candidate can be read
    plays no part. *)
Fixpoint candidatesRead (dirUri : URI) (currentFileName : string) (maxFiles : Z)
    (filesInDir : list (string * FileType)) (held : nat) : list (string * FileType) :=
  match filesInDir with
  | [] => []
  | file :: rest =>
      if sizeAccepted dirUri file && negb (String.eqb file.1 currentFileName) then
        file ::
          (if matchesCurrentFile file.1 currentFileName
              || (Z.of_nat (held + 2) >=? maxFiles * 2)
           then []
           else candidatesRead dirUri currentFileName maxFiles rest (held + 2))
      else candidatesRead dirUri currentFileName maxFiles rest held
  end.

(** The text [getFilePathContext] ends up with for a path: what was read and
    decoded, or the empty string. *)
Definition contentOrEmpty (filePath : string) : string :=
  match readFile {| fsPath := filePath |} with
  | Ok bytes => decodeUtf8 bytes
  | Err _ => ""
  end.

(** Between iterations the array holds fewer than [maxFiles] pairs. *)
Definition belowCap (maxFiles : Z) (acc : list ContextMessage) : Prop :=
  exists k, Z.of_nat (length acc) = 2 * k /\ k < maxFiles.

(** A cancelled search delivers no file: it rejects, or resolves to
    [undefined] or to an empty list. *)
Definition deliversNoFile (r : Result (option (list URI))) : Prop :=
  match r with
  | Ok (Some (_ :: _)) => False
  | _ => True
  end.

(** The search observes its token: when it needs longer than the token
    allows, it is cancelled. *)
Definition HonoursCancellation : Prop :=
  forall pattern excluded maxResults token,
    cancelledAfter token < searchTime pattern excluded maxResults ->
    deliversNoFile (findFiles pattern excluded maxResults token).

(** The search applies its exclude pattern to the workspace-relative path of
    what it finds. *)
Definition HonoursExclude : Prop :=
  forall pattern excluded maxResults token found u,
    findFiles pattern excluded maxResults token = Ok (Some found) ->
    u ∈ found ->
    Glob.matches excluded (asRelativePath (fsPath u)) = false.

End WithWorkspace.

End Helpers.

(** A path lies inside a dot-directory, [node_modules] or a [snap*]
    directory: one of its segments other than the last has such a name. *)
Definition excludedDirectoryName (d : list ascii) : Prop :=
  (exists rest, d = Str.chars "." ++ rest)
  \/ d = Str.chars "node_modules"
  \/ (exists rest, d = Str.chars "snap" ++ rest).

Definition insideExcludedDirectory (path : string) : Prop :=
  exists above d below,
    Glob.segments (Str.chars path) = above ++ d :: below
    /\ below <> []
    /\ excludedDirectoryName d.

(** ** What the specification says of the directory scan *)

Module Claimed.
Import Helpers.

(** The early-exit rule in the specification's words: the candidate's name
    stripped of its extension is a prefix or a suffix of the target file's
    base name. *)
Definition stem (name : string) : list ascii :=
  default [] (head (Str.splitChars "." (Path.lastSegment name))).

Definition companionOf (candidate target : string) : bool :=
  Str.startsWithChars (stem target) (stem candidate)
  || Str.startsWithChars (rev (stem target)) (rev (stem candidate)).

(** "The scan returns immediately": what follows the candidate in the
    listing does not matter. *)
Definition earlyExit `{Workspace} `{Prompt} (dirUri : URI)
    (before : list (string * FileType)) (candidate : string * FileType)
    (after : list (string * FileType)) (currentFileName : string) (maxFiles : Z) : Prop :=
  companionOf candidate.1 currentFileName = true ->
  getCurrentDirFilteredContext dirUri (before ++ candidate :: after) currentFileName maxFiles
  = getCurrentDirFilteredContext dirUri (before ++ [candidate]) currentFileName maxFiles.

(** At most [maxFiles] fragment pairs. *)
Definition cappedAt `{Workspace} `{Prompt} (dirUri : URI)
    (filesInDir : list (string * FileType)) (currentFileName : string) (maxFiles : Z) : Prop :=
  forall msgs,
    getCurrentDirFilteredContext dirUri filesInDir currentFileName maxFiles = Ok msgs ->
    Z.of_nat (length msgs) <= 2 * maxFiles.

(** A candidate whose stat or read fails is skipped: the scan succeeds, and
    with the result it has without that candidate. *)
Definition failingFileSkipped `{Workspace} `{Prompt} (dirUri : URI)
    (before : list (string * FileType)) (candidate : string * FileType)
    (after : list (string * FileType)) (currentFileName : string) (maxFiles : Z) : Prop :=
  isOk (stat (joinPath dirUri candidate.1)) = false
  \/ isOk (readFile (joinPath dirUri candidate.1)) = false ->
  exists msgs,
    getCurrentDirFilteredContext dirUri (before ++ candidate :: after) currentFileName maxFiles
    = Ok msgs
    /\ getCurrentDirFilteredContext dirUri (before ++ after) currentFileName maxFiles = Ok msgs.

End Claimed.

(** ** A concrete workspace, for the examples *)

Module Disk.
Import Helpers.

(** One file: its path, what [stat] and [readFile] answer for it. *)
Record Entry := {
  path : string;
  statResult : Result Z;
  content : Result string;
}.

Definition lookup (disk : list Entry) (p : string) : option Entry :=
  List.find (fun e => String.eqb (path e) p) disk.

Definition relativeTo (root p : string) : string :=
  if Str.startsWith p root
  then Str.ofChars (drop (String.length root) (Str.chars p))
  else p.

(** A workspace rooted at [/repo] over the files of [disk]; a search takes
    [time] milliseconds and answers with the files that match the pattern
    and not the exclude pattern, or with [undefined] when cancelled. *)
Definition workspace (disk : list Entry) (time : Z) : Workspace :=
  {| joinPath dir name := {| fsPath := fsPath dir +:+ "/" +:+ name |};
     asRelativePath p := relativeTo "/repo/" p;
     stat u :=
       match lookup disk (fsPath u) with
       | Some e => let* n := statResult e in Ok {| size := n |}
       | None => Err "ENOENT"
       end;
     readFile u :=
       match lookup disk (fsPath u) with
       | Some e => let* s := content e in Ok (String.list_byte_of_string s)
       | None => Err "ENOENT"
       end;
     decodeUtf8 bytes := String.string_of_list_byte bytes;
     findFiles pattern excluded maxResults token :=
       if cancelledAfter token <? time then Ok None
       else Ok (Some (take (Z.to_nat maxResults)
              (List.filter
                 (fun u => Glob.matches pattern (relativeTo "/repo/" (fsPath u))
                           && negb (Glob.matches excluded (relativeTo "/repo/" (fsPath u))))
                 ((fun e => {| fsPath := path e |}) <$> disk))));
     searchTime _ _ _ := time |}.

Definition prompt : Prompt :=
  {| MAX_CURRENT_FILE_TOKENS := 1000;
     truncateText s n := Str.ofChars (take (Z.to_nat n) (Str.chars s));
     populateContextTemplateFromText template content fileName :=
       template +:+ "[" +:+ fileName +:+ "] " +:+ content;
     populateCodeContextTemplate content fileName := fileName +:+ ": " +:+ content;
     isValidTestFileName name :=
       existsb (fun seg => Str.startsWith seg "test" || Str.endsWith seg "test"
                           || Str.endsWith seg "Test")
               (Str.split "." (Str.ofChars (Path.lastSegment name)));
     acknowledgement := "Ok." |}.

Definition regular (p : string) (n : Z) (s : string) : Entry :=
  {| path := p; statResult := Ok n; content := Ok s |}.

Definition src : URI := {| fsPath := "/repo/src" |}.

(** The files of the examples. *)
Definition files : list Entry :=
  [ regular "/repo/src/foo.ts" 20 "export const foo = 1";
    regular "/repo/src/foo.test.ts" 30 "test(foo)";
    regular "/repo/src/bar.ts" 10 "export const bar = 2";
    regular "/repo/src/bar.test.ts" 15 "test(bar)";
    regular "/repo/src/zzz.ts" 5 "zzz()";
    regular "/repo/src/empty.ts" 0 "";
    regular "/repo/src/huge.bin" 1000001 "0000";
    {| path := "/repo/src/locked.ts"; statResult := Ok 12; content := Err "EACCES" |};
    {| path := "/repo/src/gone.ts"; statResult := Err "ENOENT"; content := Err "ENOENT" |};
    regular "/repo/node_modules/pkg/bar.test.ts" 15 "test(pkg)" ].

(** The workspace with these files, whose searches take one second, and
    the same workspace with searches that take 20.001 seconds. *)
Definition quick : Workspace := workspace files 1000.
Definition slow : Workspace := workspace files 20001.

Definition entry (name : string) : string * FileType := (name, File).

End Disk.


(** * Further notions about an Interaction *)

Module Turn.
Import Interaction.

(** A context made of fragment pairs, each a human half followed by its
    assistant half, laid out as the array the class holds. *)
Definition interleave (pairs : list (ContextMessage * ContextMessage)) : list ContextMessage :=
  flat_map (fun p => [p.1; p.2]) pairs.

Definition setsUsedContext (c : Call) : bool :=
  match c with
  | CallSetUsedContext _ _ => true
  | _ => false
  end.

Definition setsMetadata (c : Call) : bool :=
  match c with
  | CallSetMetadata _ => true
  | _ => false
  end.

(** A second rule set and an embeddings fragment, for the examples. *)
Definition secretsIgnored : ContextFilter :=
  {| isCodyIgnoredFile u := false;
     isCodyIgnoredFilePath repo path := String.eqb path "secrets/key.pem" |}.

Definition embedded (repo : option string) (path : string) : ContextMessage :=
  {| speaker := human; text := path;
     file := Some {| uri := None; repoName := repo; fileName := path;
                     source := Some "embeddings" |} |}.

Definition ack : ContextMessage := {| speaker := assistant; text := "Ok."; file := None |}.

Definition rejected : t :=
  new question answer (Err "context unavailable") [] [] "2024-01-01T00:00:00.000Z".

End Turn.

(** * The remaining helpers: editors, directory listings, folding ranges,
      search patterns *)

Module Editor.
Import Helpers.

(** [vscode.Range], by its four coordinates. *)
Definition Range := (Z * Z * Z * Z)%type.

Record TextDocument := { getText : option Range -> string }.

(** [vscode.TextEditor]: its document, and [selection.isEmpty]. *)
Record TextEditor := {
  document : TextDocument;
  selectionIsEmpty : bool;
}.

(** [vscode.window]. *)
Class Window := {
  visibleTextEditors : list TextEditor;
  activeTextEditor : option TextEditor;
}.

(** [vscode.workspace.fs.readDirectory]. *)
Class Directories := {
  readDirectory : URI -> Result (list (string * FileType));
}.

Inductive FoldingRangeKind := Comment | Imports | Region.

#[global] Instance FoldingRangeKind_eq_dec : EqDecision FoldingRangeKind.
Proof. solve_decision. Defined.

Record FoldingRange := {
  rangeStart : Z;
  rangeEnd : Z;
  kind : option FoldingRangeKind;
}.

(** The [type] parameter of [getFoldingRanges]. *)
Inductive RangeType := imports | comment | all.

(** [vscode.commands.executeCommand('vscode.executeFoldingRangeProvider', uri)];
    it may resolve to [undefined]. *)
Class Commands := {
  executeFoldingRangeProvider : URI -> Result (option (list FoldingRange));
}.

Section WithWindow.
Context `{Window}.

Definition getActiveEditorFromVisibleEditors : option TextEditor :=
  if bool_decide (length visibleTextEditors = 0%nat) then None
  else
    let activeEditor := activeTextEditor in
    let editorWithSelection :=
      List.find (fun editor => negb (selectionIsEmpty editor)) visibleTextEditors in
    match activeEditor with
    | Some editor => Some editor
    | None => editorWithSelection
    end.

Definition getCurrentVSCodeDoc : option TextDocument :=
  document <$> getActiveEditorFromVisibleEditors.

(** [getCurrentVSCodeDoc()?.getText(range) || ''] *)
Definition getCurrentVSCodeDocText (range : option Range) : string :=
  match getCurrentVSCodeDoc with
  | Some doc => getText doc range
  | None => ""
  end.

End WithWindow.

Section WithDirectories.
Context `{Directories} `{Prompt}.

Definition isDirectoryType (fileType : FileType) : bool :=
  match fileType with
  | Directory => true
  | _ => false
  end.

Definition getFilesFromDir (dirUri : URI) (testFilesOnly : bool)
    : Result (list (string * FileType)) :=
  tryCatch
    (let* filesInDir := readDirectory dirUri in
     Ok (List.filter
           (fun file =>
              let fileName := file.1 in
              let fileType := file.2 in
              let isDirectory := isDirectoryType fileType in
              let isHiddenFile := Str.startsWith fileName "." in
              if negb testFilesOnly then negb isDirectory && negb isHiddenFile
              else
                let isFileNameIncludesTest := isValidTestFileName fileName in
                negb isDirectory && negb isHiddenFile && isFileNameIncludesTest)
           filesInDir))
    (fun _ => Ok []).

End WithDirectories.

(** The kind [getFoldingRanges] filters by. *)
Definition kindOf (type : option RangeType) : FoldingRangeKind :=
  match type with
  | Some imports => Imports
  | _ => Comment
  end.

Section WithCommands.
Context `{Commands}.

Definition hasKind (k : FoldingRangeKind) (range : FoldingRange) : bool :=
  bool_decide (kind range = Some k).

(** lodash's [findLast]: the last element that satisfies the predicate. *)
Definition findLast {A} (l : list A) (p : A -> bool) : option A :=
  List.find p (rev l).

Definition getFoldingRanges (uri : URI) (type : option RangeType)
    (getLastItem : option bool) : Result (option (list FoldingRange)) :=
  let* foldingRanges := executeFoldingRangeProvider uri in
  match type with
  | Some all => Ok foldingRanges
  | _ =>
      let kind :=
        match type with
        | Some imports => Imports
        | _ => Comment
        end in
      if negb (default false getLastItem) then
        let ranges := List.filter (hasKind kind) <$> foldingRanges in
        Ok ranges
      else
        let lastKind :=
          match foldingRanges with
          | Some foldingRanges => findLast foldingRanges (hasKind kind)
          | None => None
          end in
        Ok (Some match lastKind with
                 | Some lastKind => [lastKind]
                 | None => []
                 end)
  end.

End WithCommands.

(** [s.replace(pattern, '')] for a string pattern: the first occurrence is
    removed. *)
Fixpoint removeFirstChars (pattern s : list ascii) : list ascii :=
  if Str.startsWithChars s pattern then drop (length pattern) s
  else match s with
       | [] => []
       | c :: s' => c :: removeFirstChars pattern s'
       end.

Definition removeFirst (s pattern : string) : string :=
  Str.ofChars (removeFirstChars (Str.chars pattern) (Str.chars s)).

Definition createVSCodeSearchPattern (fsPath : string) (fromRoot : option bool) : string :=
  let fileName := Path.basename fsPath None in
  let fileExtension := Path.extname fsPath in
  let fileNameWithoutExt := removeFirst fileName fileExtension in
  let root := if default false fromRoot then "**" else "" in
  let currentFilePattern := "/*" +:+ fileNameWithoutExt +:+ "*" +:+ fileExtension in
  root +:+ currentFilePattern.

(** Characters that end a path segment or structure a pattern. *)
Definition structural (c : ascii) : bool :=
  Ascii.eqb c "/" || Ascii.eqb c "{" || Ascii.eqb c "}" || Ascii.eqb c ",".

(** A piece of a file name without such characters. *)
Definition plain (l : list ascii) : Prop := forallb (fun c => negb (structural c)) l = true.

(** Characters that VS Code's glob reads as wildcards, character ranges or
    escapes. *)
Definition wildcard (c : ascii) : bool :=
  Ascii.eqb c "*" || Ascii.eqb c "?" || Ascii.eqb c "[" || Ascii.eqb c "]"
  || Ascii.eqb c "!" || Ascii.eqb c "\".

(** A piece of a file name that a pattern built from it takes literally:
    none of its characters is structural or a wildcard. *)
Definition literal (l : list ascii) : Prop :=
  plain l /\ forallb (fun c => negb (wildcard c)) l = true.

Definition dotless (l : list ascii) : Prop :=
  forallb (fun c => negb (Ascii.eqb c ".")) l = true.

(** The last segment of a path is [name]. *)
Definition namedFile (path : string) (name : list ascii) : Prop :=
  last (Glob.segments (Str.chars path)) = Some name.

(** The five naming conventions of test files for [stem.ext]. *)
Definition testNames (stem ext : list ascii) : list (list ascii) :=
  [ Str.chars "test_" ++ stem ++ "."%char :: ext;
    stem ++ Str.chars "_test" ++ "."%char :: ext;
    Str.chars "test." ++ stem ++ "."%char :: ext;
    stem ++ Str.chars ".test" ++ "."%char :: ext;
    stem ++ Str.chars "Test" ++ "."%char :: ext ].

(** A directory of a path is named with one of the words of the unit-test
    exclude pattern. *)
Definition nonUnitDirectoryName (d : list ascii) : Prop :=
  exists a b word,
    word ∈ [Str.chars "e2e"; Str.chars "integration"; Str.chars "node_modules"]
    /\ d = a ++ word ++ b.

Definition insideNonUnitDirectory (path : string) : Prop :=
  exists above d below,
    Glob.segments (Str.chars path) = above ++ d :: below
    /\ below <> []
    /\ nonUnitDirectoryName d.

End Editor.

(** * Further examples *)

Module Samples.
Import Interaction Turn Helpers Editor.

Definition secretPair : ContextMessage * ContextMessage :=
  (embedded (Some "repo") "secrets/key.pem", ack).
Definition mainPair : ContextMessage * ContextMessage :=
  (embedded (Some "repo") "src/main.ts", ack).

Definition mainFile : ContextFile :=
  {| uri := None; repoName := None; fileName := "src/main.ts"; source := Some "user" |}.

Definition revised : InteractionMessage :=
  {| body := "on reflection"; msgMetadata := Some "draft" |}.

Definition textOf (s : string) : TextDocument := {| getText := fun _ => s |}.
Definition idle : TextEditor := {| document := textOf "idle"; selectionIsEmpty := true |}.
Definition selecting : TextEditor := {| document := textOf "picked"; selectionIsEmpty := false |}.

(** Two visible editors and the chat panel focused (no active editor). *)
Definition chatFocused : Window :=
  {| visibleTextEditors := [idle; selecting]; activeTextEditor := None |}.

Definition listed : Directories :=
  {| readDirectory u :=
       if String.eqb (fsPath u) "/repo/src"
       then Ok [ (".git", Directory); (".env", File); ("lib", Directory);
                 ("bar.ts", File); ("bar.test.ts", File) ]
       else Err "ENOENT" |}.

Definition header : FoldingRange := {| rangeStart := 0; rangeEnd := 3; kind := Some Comment |}.
Definition imported : FoldingRange := {| rangeStart := 4; rangeEnd := 9; kind := Some Imports |}.
Definition block : FoldingRange := {| rangeStart := 10; rangeEnd := 20; kind := None |}.
Definition imported' : FoldingRange := {| rangeStart := 21; rangeEnd := 22; kind := Some Imports |}.

Definition provider : Commands :=
  {| executeFoldingRangeProvider u :=
       if String.eqb (fsPath u) "/repo/src/bar.ts"
       then Ok (Some [header; imported; block; imported'])
       else Ok None |}.

End Samples.

(** * Properties *)

Module InteractionFacts.
Import Interaction.

Section WithContextFilter.
Context `{ContextFilter}.

Lemma copyMessage_id (l : list ContextMessage) : copyMessage <$> l = l.
Proof.
  induction l as [|[sp tx fl] l IH]; [reflexivity|].
  rewrite fmap_cons, IH. reflexivity.
Qed.

(** The guard of the loop is the condition the specification describes. *)
Lemma ignoredMessage_droppedBySpec (m : ContextMessage) :
  ignoredMessage m = droppedBySpec m.
Proof.
  destruct m as [[] tx [[u repo fn src]|]]; unfold ignoredMessage, droppedBySpec, ignoredFile;
    simpl; try reflexivity.
  f_equal. destruct src as [src|]; simpl; [|reflexivity].
  destruct (String.eqb_spec src "embeddings") as [->|Hne].
  - destruct repo as [repo|]; reflexivity.
  - rewrite bool_decide_eq_false_2 by congruence. reflexivity.
Qed.

(** The index loop, started anywhere with enough iterations left, appends
    the walk over the remaining suffix. *)
Lemma removeLoop_walkDropping (fuel : nat) (l : list ContextMessage) :
  forall (i : nat) (acc : list ContextMessage),
    (length l - i <= fuel)%nat ->
    removeLoop fuel l i acc = acc ++ walkDropping (drop i l).
Proof.
  induction fuel as [|fuel IH]; intros i acc Hfuel; simpl.
  - rewrite drop_ge by lia. simpl. now rewrite app_nil_r.
  - destruct (l !! i) as [m|] eqn:Hi.
    + pose proof (lookup_lt_Some _ _ _ Hi) as Hlt.
      rewrite (drop_S _ _ _ Hi). simpl.
      rewrite <- ignoredMessage_droppedBySpec.
      destruct (ignoredMessage m).
      * rewrite IH by lia.
        destruct (l !! S i) as [m'|] eqn:Hi'.
        -- now rewrite (drop_S _ _ _ Hi').
        -- apply lookup_ge_None in Hi'.
           rewrite (drop_ge l (S i)) by lia. now rewrite (drop_ge l (S (S i))) by lia.
      * rewrite IH by lia. now rewrite <- app_assoc.
    + apply lookup_ge_None in Hi. rewrite drop_ge by lia. simpl. now rewrite app_nil_r.
Qed.

Lemma filterIgnored_walkDropping (l : list ContextMessage) :
  filterIgnored l = walkDropping l.
Proof.
  unfold filterIgnored. rewrite removeLoop_walkDropping by lia. reflexivity.
Qed.

(** Whatever the walk keeps has passed the guard. *)
Lemma walkDropping_kept (n : nat) :
  forall l : list ContextMessage, (length l <= n)%nat ->
    Forall (fun m => droppedBySpec m = false) (walkDropping l).
Proof.
  induction n as [|n IH]; intros [|m rest] Hlen; simpl in *; try constructor; try lia.
  destruct (droppedBySpec m) eqn:Hm.
  - destruct rest as [|m' rest']; [constructor|]. apply IH. simpl in Hlen. lia.
  - constructor; [exact Hm|]. apply IH. lia.
Qed.

(** A sequence without ignored fragments is left as it is. *)
Lemma walkDropping_clean (l : list ContextMessage) :
  Forall (fun m => droppedBySpec m = false) l -> walkDropping l = l.
Proof.
  induction 1 as [|m rest Hm _ IH]; simpl; [reflexivity|].
  rewrite Hm. now rewrite IH.
Qed.

Lemma filterIgnored_idem (l : list ContextMessage) :
  filterIgnored (filterIgnored l) = filterIgnored l.
Proof.
  rewrite !filterIgnored_walkDropping.
  apply walkDropping_clean, (walkDropping_kept (length l)). lia.
Qed.

(** The context slot after any sequence of calls. *)
Lemma fullContext_afterAll (cs : list Call) :
  forall (this : t) (cur : list ContextMessage),
    fullContext this = Ok cur ->
    fullContext (afterAll cs this)
    = Ok (if existsb readsContext cs then filterIgnored cur else cur).
Proof.
  induction cs as [|c cs IH]; intros this cur Hcur; simpl; [exact Hcur|].
  unfold afterAll in *. simpl.
  destruct c; simpl;
    try (rewrite (IH _ cur) by (simpl; exact Hcur); reflexivity).
  - unfold getFullContext, removeCodyIgnoredFiles. rewrite Hcur. simpl.
    rewrite (IH _ (filterIgnored cur)) by reflexivity.
    rewrite filterIgnored_idem. now destruct (existsb readsContext cs).
  - unfold hasContext, removeCodyIgnoredFiles. rewrite Hcur. simpl.
    rewrite (IH _ (filterIgnored cur)) by reflexivity.
    rewrite filterIgnored_idem. now destruct (existsb readsContext cs).
Qed.

(** C1.  For an Interaction holding the fragment sequence [msgs],
    [getFullContext()] returns the sequence obtained by walking [msgs] in
    order and dropping every human fragment with file info whose URI is
    ignored, or whose source is "embeddings" and whose repo-relative path is
    ignored, together with the one element after it, keeping every other
    fragment in order.  In particular, an ignored human/assistant pair
    followed by an allowed pair yields exactly the allowed pair. *)
Theorem getFullContext_walkDropping (this : t) (msgs : list ContextMessage)
    (Hheld : fullContext this = Ok msgs) :
  fst (getFullContext this) = Ok (walkDropping msgs)
  /\ forall ign ignAck ok okAck : ContextMessage,
       msgs = [ign; ignAck; ok; okAck] ->
       droppedBySpec ign = true ->
       droppedBySpec ok = false ->
       speaker okAck = assistant ->
       fst (getFullContext this) = Ok [ok; okAck].
Proof.
  assert (Hget : fst (getFullContext this) = Ok (walkDropping msgs)).
  { unfold getFullContext, removeCodyIgnoredFiles. rewrite Hheld. simpl.
    now rewrite copyMessage_id, filterIgnored_walkDropping. }
  split; [exact Hget|].
  intros ign ignAck ok okAck -> Hign Hok Hack.
  rewrite Hget. simpl. rewrite Hign, Hok.
  assert (droppedBySpec okAck = false) as ->; [|reflexivity].
  unfold droppedBySpec. rewrite Hack. reflexivity.
Qed.

(** C2.  The filter of [removeCodyIgnoredFiles] is idempotent: filtering a
    sequence that is itself an output of the filter returns it unchanged;
    accordingly a second call of [removeCodyIgnoredFiles] returns what the
    first returned and leaves the object as the first left it. *)
Theorem removeCodyIgnoredFiles_idempotent (msgs : list ContextMessage) (this : t) :
  filterIgnored (filterIgnored msgs) = filterIgnored msgs
  /\ removeCodyIgnoredFiles (snd (removeCodyIgnoredFiles this))
     = removeCodyIgnoredFiles this.
Proof.
  split; [apply filterIgnored_idem|].
  unfold removeCodyIgnoredFiles.
  destruct (fullContext this) as [cur|e] eqn:Hcur; simpl.
  - rewrite filterIgnored_idem. reflexivity.
  - rewrite Hcur. reflexivity.
Qed.

(** C3, as amended.  [toJSON()] serializes the current content of the
    context slot: the raw resolved fragments when neither [getFullContext()]
    nor [hasContext()] was called before, the filtered fragments otherwise;
    the object it returns has no [context] field. *)
Theorem toJSON_serializes_slot (h a : InteractionMessage) (raw : list ContextMessage)
    (files : list ContextFile) (precise : list PreciseContext) (ts : string)
    (cs : list Call) :
  exists j, toJSON (afterAll cs (new h a (Ok raw) files precise ts)) = Ok j
    /\ json_fullContext j = (if existsb readsContext cs then filterIgnored raw else raw)
    /\ json_context j = None.
Proof.
  unfold toJSON.
  rewrite (fullContext_afterAll cs _ raw) by reflexivity. simpl.
  eexists; split; [reflexivity|]. split; reflexivity.
Qed.

End WithContextFilter.

(** Witness of C1: the turn built from the ignored pair and the allowed
    pair. *)
Lemma getFullContext_walkDropping_witness :
  fullContext (turn (ignoredPair ++ allowedPair)) = Ok (ignoredPair ++ allowedPair)
  /\ fst (@getFullContext envFilesIgnored (turn (ignoredPair ++ allowedPair)))
     = Ok (@walkDropping envFilesIgnored (ignoredPair ++ allowedPair))
  /\ fst (@getFullContext envFilesIgnored (turn (ignoredPair ++ allowedPair)))
     = Ok allowedPair.
Proof.
  split; [reflexivity|].
  destruct (@getFullContext_walkDropping envFilesIgnored
              (turn (ignoredPair ++ allowedPair)) (ignoredPair ++ allowedPair) eq_refl)
    as [Hwalk Hpair].
  split; [exact Hwalk|].
  apply (Hpair _ _ _ _ eq_refl); reflexivity.
Defined.

(** Counterexample to C3 as stated: after [getFullContext()] on a turn whose
    context is one ignored pair, [toJSON()] carries the filtered (empty)
    context, and no [context] field. *)
Lemma toJSON_raw_and_legacy_counterexample :
  ~ @toJSON_raw_and_legacy envFilesIgnored (turn ignoredPair) ignoredPair [CallGetFullContext]
  /\ exists j, @toJSON (@afterAll envFilesIgnored [CallGetFullContext] (turn ignoredPair)) = Ok j
       /\ json_fullContext j = [] /\ json_context j = None.
Proof.
  split.
  - intros (j & Hj & Hraw & _). vm_compute in Hj. inversion Hj; subst j.
    discriminate Hraw.
  - eexists. split; [vm_compute; reflexivity|]. split; reflexivity.
Qed.

End InteractionFacts.

Module GlobFacts.
Import Glob.

Lemma segmentsMatch_globstar (p : list ascii) (ps path : list (list ascii)) :
  isGlobStar p = true ->
  segmentsMatch (p :: ps) path
  = segmentsMatch ps path
    || match path with
       | [] => false
       | _ :: path' => segmentsMatch (p :: ps) path'
       end.
Proof. intros Hp. destruct path; simpl; rewrite Hp; reflexivity. Qed.

Lemma segmentsMatch_segment (p : list ascii) (ps : list (list ascii))
    (s : list ascii) (path : list (list ascii)) :
  isGlobStar p = false ->
  segmentsMatch (p :: ps) (s :: path) = segmentMatches p s && segmentsMatch ps path.
Proof. intros Hp. simpl. rewrite Hp. reflexivity. Qed.

(** A trailing [**] matches whatever is left of the path. *)
Lemma segmentsMatch_trailing_globstar (p : list ascii) (path : list (list ascii)) :
  isGlobStar p = true -> segmentsMatch [p] path = true.
Proof.
  intros Hp. induction path as [|s path IH]; rewrite segmentsMatch_globstar by exact Hp.
  - reflexivity.
  - rewrite IH. apply orb_true_r.
Qed.

(** [**/d/**] matches every path with a segment matching [d] that is not
    its last. *)
Lemma segmentsMatch_directory (g p : list ascii) (d : list ascii)
    (above below : list (list ascii)) :
  isGlobStar g = true ->
  isGlobStar p = false ->
  segmentMatches p d = true ->
  segmentsMatch [g; p; g] (above ++ d :: below) = true.
Proof.
  intros Hg Hp Hd. induction above as [|a above IH].
  - rewrite app_nil_l, segmentsMatch_globstar by exact Hg.
    rewrite segmentsMatch_segment by exact Hp.
    rewrite Hd, segmentsMatch_trailing_globstar by exact Hg. reflexivity.
  - rewrite <- app_comm_cons, segmentsMatch_globstar by exact Hg.
    rewrite IH. apply orb_true_r.
Qed.

Lemma segmentMatches_star (p s : list ascii) :
  segmentMatches ("*"%char :: p) s
  = segmentMatches p s
    || match s with
       | [] => false
       | _ :: s' => segmentMatches ("*"%char :: p) s'
       end.
Proof. destruct s; reflexivity. Qed.

Lemma segmentMatches_trailing_star (s : list ascii) :
  segmentMatches ["*"%char] s = true.
Proof.
  induction s as [|c s IH]; rewrite segmentMatches_star.
  - reflexivity.
  - rewrite IH. apply orb_true_r.
Qed.

(** The three alternatives of the default exclude pattern accept the names
    of dot-directories, of [node_modules] and of [snap*] directories. *)
Lemma dot_directory_matches (rest : list ascii) :
  segmentMatches (Str.chars ".*") (Str.chars "." ++ rest) = true.
Proof. change (segmentMatches ["*"%char] rest = true). apply segmentMatches_trailing_star. Qed.

Lemma node_modules_matches :
  segmentMatches (Str.chars "node_modules") (Str.chars "node_modules") = true.
Proof. reflexivity. Qed.

Lemma snap_directory_matches (rest : list ascii) :
  segmentMatches (Str.chars "snap*") (Str.chars "snap" ++ rest) = true.
Proof. change (segmentMatches ["*"%char] rest = true). apply segmentMatches_trailing_star. Qed.

Lemma excluded_directory_matches (path : string) :
  insideExcludedDirectory path ->
  Glob.matches Helpers.defaultExcludePattern path = true.
Proof.
  intros (above & d & below & Hsegs & Hbelow & Hname).
  unfold Glob.matches. rewrite Hsegs.
  change (expand None (Str.chars Helpers.defaultExcludePattern))
    with [Str.chars "**/.*/**"; Str.chars "**/node_modules/**"; Str.chars "**/snap*/**"].
  cbn [existsb].
  change (segments (Str.chars "**/.*/**"))
    with [Str.chars "**"; Str.chars ".*"; Str.chars "**"].
  change (segments (Str.chars "**/node_modules/**"))
    with [Str.chars "**"; Str.chars "node_modules"; Str.chars "**"].
  change (segments (Str.chars "**/snap*/**"))
    with [Str.chars "**"; Str.chars "snap*"; Str.chars "**"].
  destruct Hname as [[rest ->]|[->|[rest ->]]].
  - rewrite segmentsMatch_directory; [reflexivity..|apply dot_directory_matches].
  - rewrite (segmentsMatch_directory _ (Str.chars "node_modules"));
      [apply orb_true_r|reflexivity..].
  - rewrite (segmentsMatch_directory _ (Str.chars "snap*"));
      [rewrite !orb_true_r; reflexivity|reflexivity..|apply snap_directory_matches].
Qed.

End GlobFacts.

Module HelpersFacts.
Import Helpers.

Section WithWorkspace.
Context `{Workspace} `{Prompt}.

(** [decodeVSCodeTextDoc] never rejects, so the [try] block of the scans
    always completes. *)
Lemma decodeVSCodeTextDoc_total (fileUri : URI) :
  decodeVSCodeTextDoc fileUri
  = Ok match readFile fileUri with
       | Ok bytes => decodeUtf8 bytes
       | Err _ => ""
       end.
Proof. unfold decodeVSCodeTextDoc. destruct (readFile fileUri); reflexivity. Qed.

Lemma pushFileContext_app (acc : list ContextMessage) (fileUri : URI) (fileName : string) :
  pushFileContext acc fileUri fileName = acc ++ pushFileContext [] fileUri fileName.
Proof.
  unfold pushFileContext, fileContextMessage.
  rewrite decodeVSCodeTextDoc_total. reflexivity.
Qed.

Lemma pushFileContext_length (acc : list ContextMessage) (fileUri : URI) (fileName : string) :
  length (pushFileContext acc fileUri fileName) = (length acc + 2)%nat.
Proof.
  unfold pushFileContext, fileContextMessage.
  rewrite decodeVSCodeTextDoc_total. simpl. rewrite length_app. reflexivity.
Qed.

Lemma sizeAccepted_stat (dirUri : URI) (file : string * FileType) (fileSize : FileStat) :
  stat (joinPath dirUri file.1) = Ok fileSize ->
  sizeAccepted dirUri file = negb ((size fileSize >? 1000000) || (size fileSize =? 0)).
Proof. intros Hst. unfold sizeAccepted. now rewrite Hst. Qed.

(** Case analysis on one iteration of a scan: the [stat] of the candidate
    and the size test. *)
Ltac scan_step dirUri file :=
  let fileSize := fresh "fileSize" in
  let Hstat := fresh "Hstat" in
  let Hsize := fresh "Hsize" in
  destruct (stat (joinPath dirUri file.1)) as [fileSize|?] eqn:Hstat;
  unfold await in *;
  [destruct ((size fileSize >? 1000000) || (size fileSize =? 0)) eqn:Hsize|].

(** *** What a scan returns is made of candidates that passed the size test *)

Lemma currentDirLoop_kept (dirUri : URI) (cur stemOfCur : string) (maxFiles : Z)
    (filesInDir : list (string * FileType)) :
  forall acc msgs,
    currentDirLoop dirUri cur stemOfCur maxFiles filesInDir acc = Ok msgs ->
    exists kept,
      kept `sublist_of` filesInDir
      /\ Forall (fun file => sizeAccepted dirUri file = true) kept
      /\ msgs = acc ++ flat_map (fragmentsOf dirUri) kept.
Proof.
  induction filesInDir as [|file rest IH]; intros acc msgs Hrun; simpl in Hrun.
  - inversion Hrun; subst. exists []. rewrite app_nil_r. repeat split; constructor.
  - scan_step dirUri file; [| |discriminate].
    + destruct (IH _ _ Hrun) as (kept & Hsub & Hall & ->).
      exists kept. repeat split; [by apply sublist_cons|done].
    + assert (Hacc : sizeAccepted dirUri file = true).
      { rewrite (sizeAccepted_stat _ _ _ Hstat), Hsize. reflexivity. }
      destruct (String.eqb file.1 cur).
      { destruct (IH _ _ Hrun) as (kept & Hsub & Hall & ->).
        exists kept. repeat split; [by apply sublist_cons|done]. }
      rewrite pushFileContext_app in Hrun. fold (fragmentsOf dirUri file) in Hrun.
      assert (Hone : acc ++ fragmentsOf dirUri file
                     = acc ++ flat_map (fragmentsOf dirUri) [file]).
      { simpl. now rewrite app_nil_r. }
      destruct (Str.startsWith file.1 stemOfCur || Str.endsWith file.1 stemOfCur).
      { inversion Hrun; subst. exists [file]. repeat split; [|by constructor|exact Hone].
        apply sublist_skip, sublist_nil_l. }
      destruct (Z.of_nat (length (acc ++ fragmentsOf dirUri file)) >=? maxFiles * 2).
      { inversion Hrun; subst. exists [file]. repeat split; [|by constructor|exact Hone].
        apply sublist_skip, sublist_nil_l. }
      destruct (IH _ _ Hrun) as (kept & Hsub & Hall & ->).
      exists (file :: kept). repeat split; [by apply sublist_skip|by constructor|].
      simpl. now rewrite app_assoc.
Qed.

Lemma dirLoop_kept (dirUri : URI) (filesInDir : list (string * FileType)) :
  forall acc msgs,
    dirLoop dirUri filesInDir acc = Ok msgs ->
    exists kept,
      kept `sublist_of` filesInDir
      /\ Forall (fun file => sizeAccepted dirUri file = true) kept
      /\ msgs = acc ++ flat_map (fragmentsOf dirUri) kept.
Proof.
  induction filesInDir as [|file rest IH]; intros acc msgs Hrun; simpl in Hrun.
  - inversion Hrun; subst. exists []. rewrite app_nil_r. repeat split; constructor.
  - scan_step dirUri file; [| |discriminate].
    + destruct (IH _ _ Hrun) as (kept & Hsub & Hall & ->).
      exists kept. repeat split; [by apply sublist_cons|done].
    + assert (Hacc : sizeAccepted dirUri file = true).
      { rewrite (sizeAccepted_stat _ _ _ Hstat), Hsize. reflexivity. }
      rewrite pushFileContext_app in Hrun. fold (fragmentsOf dirUri file) in Hrun.
      destruct (IH _ _ Hrun) as (kept & Hsub & Hall & ->).
      exists (file :: kept). repeat split; [by apply sublist_skip|by constructor|].
      simpl. now rewrite app_assoc.
Qed.

Lemma rejected_size_not_accepted (dirUri : URI) (file : string * FileType) (fileSize : FileStat) :
  stat (joinPath dirUri file.1) = Ok fileSize ->
  size fileSize = 0 \/ 1000000 < size fileSize ->
  sizeAccepted dirUri file = false.
Proof.
  intros Hst Hsz. rewrite (sizeAccepted_stat _ _ _ Hst).
  destruct Hsz as [->|Hbig]; [reflexivity|].
  assert ((size fileSize >? 1000000) = true) as -> by lia. reflexivity.
Qed.

(** C4.  Whatever either directory scan returns consists of the fragment
    pairs of a sub-listing [kept] of the candidates, in listing order, and a
    candidate whose reported size is 0 or greater than 1,000,000 bytes is
    not in [kept]: no fragment is produced for it. *)
Theorem scans_respect_size_ceiling (dirUri : URI) (filesInDir : list (string * FileType))
    (currentFileName : string) (maxFiles : Z) (msgs : list ContextMessage)
    (Hscan : getCurrentDirFilteredContext dirUri filesInDir currentFileName maxFiles = Ok msgs
             \/ getDirContextMessages dirUri filesInDir = Ok msgs) :
  exists kept,
    kept `sublist_of` filesInDir
    /\ msgs = flat_map (fragmentsOf dirUri) kept
    /\ forall file fileSize,
         stat (joinPath dirUri file.1) = Ok fileSize ->
         size fileSize = 0 \/ 1000000 < size fileSize ->
         file ∉ kept.
Proof.
  assert (Hkept : exists kept, kept `sublist_of` filesInDir
            /\ Forall (fun file => sizeAccepted dirUri file = true) kept
            /\ msgs = [] ++ flat_map (fragmentsOf dirUri) kept).
  { destruct Hscan as [Hscan|Hscan].
    - eapply currentDirLoop_kept, Hscan.
    - eapply dirLoop_kept, Hscan. }
  destruct Hkept as (kept & Hsub & Hall & ->).
  exists kept. repeat split; [exact Hsub|].
  intros file fileSize Hst Hsz Hin.
  rewrite Forall_forall in Hall. specialize (Hall _ Hin).
  rewrite (rejected_size_not_accepted _ _ _ Hst Hsz) in Hall. discriminate.
Qed.

(** *** Early exit *)

(** The iteration on a candidate that is read and passes the early-exit
    test: the loop returns what it has, whatever follows in the listing. *)
Lemma currentDirLoop_exit (dirUri : URI) (cur : string) (maxFiles : Z)
    (file : string * FileType) (rest : list (string * FileType))
    (acc : list ContextMessage) :
  sizeAccepted dirUri file = true ->
  file.1 <> cur ->
  matchesCurrentFile file.1 cur = true ->
  currentDirLoop dirUri cur (fileNameWithoutExtOf cur) maxFiles (file :: rest) acc
  = Ok (acc ++ fragmentsOf dirUri file).
Proof.
  intros Hacc Hother Hmatch. simpl.
  unfold sizeAccepted in Hacc.
  destruct (stat (joinPath dirUri file.1)) as [fileSize|] eqn:Hstat; [|discriminate].
  unfold await. apply negb_true_iff in Hacc. rewrite Hacc.
  apply String.eqb_neq in Hother. rewrite Hother.
  unfold matchesCurrentFile in Hmatch. rewrite Hmatch.
  now rewrite pushFileContext_app.
Qed.

Lemma currentDirLoop_exit_app (dirUri : URI) (cur : string) (maxFiles : Z)
    (file : string * FileType) (after : list (string * FileType)) :
  sizeAccepted dirUri file = true ->
  file.1 <> cur ->
  matchesCurrentFile file.1 cur = true ->
  forall (before : list (string * FileType)) (acc : list ContextMessage),
    currentDirLoop dirUri cur (fileNameWithoutExtOf cur) maxFiles (before ++ file :: after) acc
    = currentDirLoop dirUri cur (fileNameWithoutExtOf cur) maxFiles (before ++ [file]) acc.
Proof.
  intros Hacc Hother Hmatch before.
  induction before as [|b before IH]; intros acc.
  - rewrite !app_nil_l, !currentDirLoop_exit by assumption. reflexivity.
  - rewrite <- !app_comm_cons. simpl.
    destruct (stat (joinPath dirUri b.1)) as [fileSize|]; [|reflexivity].
    unfold await. rewrite !IH. reflexivity.
Qed.

(** C5, as amended.  When the scan reads a candidate (its size passes the
    test and it is not the current file) whose name starts with or ends with
    the target file's base name stripped of its extension, it returns
    immediately with the fragments accumulated so far followed by that
    candidate's pair, whatever [maxFiles] is: the candidates after it are
    not processed. *)
Theorem early_exit_on_matching_name (dirUri : URI) (currentFileName : string) (maxFiles : Z)
    (file : string * FileType) (before after : list (string * FileType))
    (acc : list ContextMessage)
    (Hread : sizeAccepted dirUri file = true)
    (Hother : file.1 <> currentFileName)
    (Hmatch : matchesCurrentFile file.1 currentFileName = true) :
  currentDirLoop dirUri currentFileName (fileNameWithoutExtOf currentFileName) maxFiles
    (file :: after) acc
  = Ok (acc ++ fragmentsOf dirUri file)
  /\ getCurrentDirFilteredContext dirUri (before ++ file :: after) currentFileName maxFiles
     = getCurrentDirFilteredContext dirUri (before ++ [file]) currentFileName maxFiles.
Proof.
  split.
  - now apply currentDirLoop_exit.
  - unfold getCurrentDirFilteredContext. now apply currentDirLoop_exit_app.
Qed.

(** *** The cap *)

Lemma belowCap_push (maxFiles : Z) (acc : list ContextMessage) (u : URI) (name : string) :
  belowCap maxFiles acc ->
  (Z.of_nat (length (pushFileContext acc u name)) >=? maxFiles * 2) = false ->
  belowCap maxFiles (pushFileContext acc u name).
Proof.
  intros (k & Hk & Hlt) Hcap. exists (k + 1).
  rewrite Z.geb_leb in Hcap. apply Z.leb_gt in Hcap.
  rewrite pushFileContext_length in *. lia.
Qed.

Lemma currentDirLoop_capped (dirUri : URI) (cur stemOfCur : string) (maxFiles : Z)
    (filesInDir : list (string * FileType)) :
  forall acc msgs,
    belowCap maxFiles acc ->
    currentDirLoop dirUri cur stemOfCur maxFiles filesInDir acc = Ok msgs ->
    Z.of_nat (length msgs) <= 2 * maxFiles.
Proof.
  induction filesInDir as [|file rest IH]; intros acc msgs Hbelow Hrun; simpl in Hrun.
  - inversion Hrun; subst. destruct Hbelow as (k & Hk & Hlt). lia.
  - scan_step dirUri file; [eauto| |discriminate].
    destruct (String.eqb file.1 cur); [eauto|].
    assert (Hpushed : Z.of_nat (length (pushFileContext acc (joinPath dirUri file.1)
              (createVSCodeRelativePath (fsPath (joinPath dirUri file.1))))) <= 2 * maxFiles).
    { destruct Hbelow as (k & Hk & Hlt). rewrite pushFileContext_length. lia. }
    destruct (Str.startsWith file.1 stemOfCur || Str.endsWith file.1 stemOfCur).
    { inversion Hrun; subst. exact Hpushed. }
    destruct (Z.of_nat (length _) >=? maxFiles * 2) eqn:Hcap.
    { inversion Hrun; subst. exact Hpushed. }
    eapply IH; [|exact Hrun]. now apply belowCap_push.
Qed.

Lemma currentDirLoop_stops (dirUri : URI) (cur stemOfCur : string) (maxFiles : Z)
    (before after : list (string * FileType)) :
  forall acc msgs,
    belowCap maxFiles acc ->
    currentDirLoop dirUri cur stemOfCur maxFiles before acc = Ok msgs ->
    2 * maxFiles <= Z.of_nat (length msgs) ->
    currentDirLoop dirUri cur stemOfCur maxFiles (before ++ after) acc = Ok msgs.
Proof.
  induction before as [|file rest IH]; intros acc msgs Hbelow Hrun Hfull; simpl in Hrun.
  - inversion Hrun; subst. destruct Hbelow as (k & Hk & Hlt). lia.
  - rewrite <- app_comm_cons. simpl.
    scan_step dirUri file; [eauto| |discriminate].
    destruct (String.eqb file.1 cur); [eauto|].
    destruct (Str.startsWith file.1 stemOfCur || Str.endsWith file.1 stemOfCur); [exact Hrun|].
    destruct (Z.of_nat (length _) >=? maxFiles * 2) eqn:Hcap; [exact Hrun|].
    apply IH; [now apply belowCap_push|exact Hrun|exact Hfull].
Qed.

(** C6, as amended.  For every listing and every [maxFiles] of at least 1,
    the scan returns at most [maxFiles] fragment pairs (at most
    [2 * maxFiles] messages), and once [maxFiles] pairs have been emitted it
    has stopped: candidates listed after that point change nothing. *)
Theorem at_most_maxFiles_pairs (dirUri : URI) (currentFileName : string) (maxFiles : Z)
    (Hpos : 1 <= maxFiles) :
  (forall filesInDir msgs,
     getCurrentDirFilteredContext dirUri filesInDir currentFileName maxFiles = Ok msgs ->
     Z.of_nat (length msgs) <= 2 * maxFiles)
  /\ (forall before after msgs,
        getCurrentDirFilteredContext dirUri before currentFileName maxFiles = Ok msgs ->
        2 * maxFiles <= Z.of_nat (length msgs) ->
        getCurrentDirFilteredContext dirUri (before ++ after) currentFileName maxFiles
        = Ok msgs).
Proof.
  assert (Hstart : belowCap maxFiles []) by (exists 0; simpl; lia).
  split.
  - intros filesInDir msgs Hrun. eapply currentDirLoop_capped; [exact Hstart|exact Hrun].
  - intros before after msgs Hrun Hfull.
    apply currentDirLoop_stops; [exact Hstart|exact Hrun|exact Hfull].
Qed.

(** *** Failing reads *)

Lemma currentDirLoop_ok (dirUri : URI) (cur stemOfCur : string) (maxFiles : Z)
    (filesInDir : list (string * FileType)) :
  Forall (fun file => isOk (stat (joinPath dirUri file.1)) = true) filesInDir ->
  forall acc, exists msgs,
    currentDirLoop dirUri cur stemOfCur maxFiles filesInDir acc = Ok msgs.
Proof.
  induction 1 as [|file rest Hfile _ IH]; intros acc; simpl; [eauto|].
  destruct (stat (joinPath dirUri file.1)) as [fileSize|]; [|discriminate].
  unfold await.
  repeat match goal with |- context [if ?b then _ else _] => destruct b end; eauto.
Qed.

Lemma dirLoop_all (dirUri : URI) (filesInDir : list (string * FileType)) :
  Forall (fun file => isOk (stat (joinPath dirUri file.1)) = true) filesInDir ->
  forall acc,
    dirLoop dirUri filesInDir acc
    = Ok (acc ++ flat_map (fragmentsOf dirUri) (List.filter (sizeAccepted dirUri) filesInDir)).
Proof.
  induction 1 as [|file rest Hfile _ IH]; intros acc; simpl.
  - now rewrite app_nil_r.
  - destruct (stat (joinPath dirUri file.1)) as [fileSize|] eqn:Hstat; [|discriminate].
    unfold await. rewrite (sizeAccepted_stat _ _ _ Hstat).
    destruct ((size fileSize >? 1000000) || (size fileSize =? 0)); simpl; rewrite IH.
    + reflexivity.
    + rewrite pushFileContext_app, <- app_assoc. reflexivity.
Qed.

Lemma currentDirLoop_candidatesRead (dirUri : URI) (cur : string) (maxFiles : Z)
    (filesInDir : list (string * FileType)) :
  Forall (fun file => isOk (stat (joinPath dirUri file.1)) = true) filesInDir ->
  forall acc,
    currentDirLoop dirUri cur (fileNameWithoutExtOf cur) maxFiles filesInDir acc
    = Ok (acc ++ flat_map (fragmentsOf dirUri)
                   (candidatesRead dirUri cur maxFiles filesInDir (length acc))).
Proof.
  induction 1 as [|file rest Hfile _ IH]; intros acc; simpl.
  - now rewrite app_nil_r.
  - destruct (stat (joinPath dirUri file.1)) as [fileSize|] eqn:Hstat; [|discriminate].
    unfold await. rewrite (sizeAccepted_stat _ _ _ Hstat).
    destruct ((size fileSize >? 1000000) || (size fileSize =? 0)); simpl; [apply IH|].
    destruct (String.eqb file.1 cur); simpl; [apply IH|].
    rewrite pushFileContext_length.
    fold (matchesCurrentFile file.1 cur).
    rewrite pushFileContext_app. fold (fragmentsOf dirUri file).
    destruct (matchesCurrentFile file.1 cur); simpl.
    { now rewrite app_nil_r. }
    destruct (Z.of_nat (length acc + 2) >=? maxFiles * 2); simpl.
    { now rewrite app_nil_r. }
    rewrite IH, length_app, <- app_assoc.
    replace (length (fragmentsOf dirUri file)) with 2%nat; [reflexivity|].
    unfold fragmentsOf. now rewrite pushFileContext_length.
Qed.

(** C8, as amended.  In a scan whose [stat] calls succeed, a file that
    cannot be read does not abort the scan: [decodeVSCodeTextDoc] turns the
    failure into the empty text, and the file is not skipped but contributes
    its fragment pair with that empty content.  [getCurrentDirFilteredContext]
    returns the pairs of the candidates [candidatesRead] lists (those that
    pass the size test and are not the current file, up to the early exit
    or the cap), and [getDirContextMessages] the pairs of all candidates
    that pass the size test, whether or not each can be read: the
    candidates after an unreadable file are processed as after a readable
    one. *)
Theorem read_errors_do_not_abort (dirUri : URI) (filesInDir : list (string * FileType))
    (currentFileName : string) (maxFiles : Z)
    (Hstats : Forall (fun file => isOk (stat (joinPath dirUri file.1)) = true) filesInDir) :
  getCurrentDirFilteredContext dirUri filesInDir currentFileName maxFiles
  = Ok (flat_map (fragmentsOf dirUri)
          (candidatesRead dirUri currentFileName maxFiles filesInDir 0))
  /\ getDirContextMessages dirUri filesInDir
     = Ok (flat_map (fragmentsOf dirUri) (List.filter (sizeAccepted dirUri) filesInDir))
  /\ forall file,
       isOk (readFile (joinPath dirUri file.1)) = false ->
       decodeVSCodeTextDoc (joinPath dirUri file.1) = Ok ""
       /\ fragmentsOf dirUri file
          = let fileName := createVSCodeRelativePath (fsPath (joinPath dirUri file.1)) in
            getContextMessageWithResponse
              (populateContextTemplateFromText templateText
                 (truncateText "" MAX_CURRENT_FILE_TOKENS) fileName)
              (fileNamed fileName).
Proof.
  split; [|split].
  - unfold getCurrentDirFilteredContext.
    now rewrite (currentDirLoop_candidatesRead _ _ _ _ Hstats []).
  - unfold getDirContextMessages. now rewrite dirLoop_all.
  - intros file Hread.
    unfold fragmentsOf, pushFileContext, fileContextMessage.
    rewrite decodeVSCodeTextDoc_total.
    destruct (readFile (joinPath dirUri file.1)); [discriminate|]. split; reflexivity.
Qed.

(** *** Workspace searches *)

(** C7.  [findVSCodeFiles] never rejects; it returns the empty list when
    the underlying search rejects, and, the search being run under a token
    cancelled after 20000 ms, when the search needs longer than that
    (provided the search observes its token). *)
Theorem findVSCodeFiles_empty_on_failure (globalPattern : string)
    (excludePattern : option string) (maxResults : Z) :
  let excluded := excludedOr excludePattern defaultExcludePattern in
  let token := {| cancelledAfter := 20000 |} in
  (exists found, findVSCodeFiles globalPattern excludePattern maxResults = Ok found)
  /\ (isOk (findFiles globalPattern excluded maxResults token) = false ->
      findVSCodeFiles globalPattern excludePattern maxResults = Ok [])
  /\ (HonoursCancellation ->
      20000 < searchTime globalPattern excluded maxResults ->
      findVSCodeFiles globalPattern excludePattern maxResults = Ok []).
Proof.
  intros excluded token. unfold findVSCodeFiles. fold excluded token.
  split; [|split].
  - destruct (findFiles globalPattern excluded maxResults token); simpl; eauto.
  - destruct (findFiles globalPattern excluded maxResults token); [discriminate|reflexivity].
  - intros Hcancel Hlong.
    specialize (Hcancel globalPattern excluded maxResults token Hlong).
    destruct (findFiles globalPattern excluded maxResults token) as [[[|u found]|]|];
      simpl in *; [reflexivity|contradiction|reflexivity|reflexivity].
Qed.

(** What [findVSCodeFiles] returns is what the search found under the
    exclude pattern in force. *)
Lemma findVSCodeFiles_found (globalPattern : string) (excludePattern : option string)
    (maxResults : Z) (found : list URI) (u : URI) :
  findVSCodeFiles globalPattern excludePattern maxResults = Ok found ->
  u ∈ found ->
  exists token found',
    findFiles globalPattern (excludedOr excludePattern defaultExcludePattern) maxResults token
    = Ok (Some found')
    /\ u ∈ found'.
Proof.
  unfold findVSCodeFiles. intros Hrun Hin.
  destruct (findFiles _ _ _ _) as [[found'|]|] eqn:Hfind; simpl in Hrun;
    inversion Hrun; subst; [eauto|inversion Hin|inversion Hin].
Qed.

Lemma getFilePathContext_total (filePath : string) :
  exists context, getFilePathContext filePath = Ok context.
Proof.
  unfold getFilePathContext. rewrite decodeVSCodeTextDoc_total. simpl. eauto.
Qed.

(** Every message with file info built from a list of files names one of
    them. *)
Lemma contextFromFilesLoop_files (files : list URI) :
  forall acc msgs m f,
    contextFromFilesLoop files acc = Ok msgs ->
    m ∈ msgs -> file m = Some f ->
    m ∈ acc \/ exists u, u ∈ files /\ fileName f = asRelativePath (fsPath u).
Proof.
  induction files as [|u files IH]; intros acc msgs m f Hrun Hin Hfile; simpl in Hrun.
  - inversion Hrun; subst. now left.
  - destruct (getFilePathContext_total (fsPath u)) as [context Hctx].
    rewrite Hctx in Hrun. unfold await in Hrun.
    destruct (IH _ _ _ _ Hrun Hin Hfile) as [Hacc|(u' & Hu' & Hname)].
    + apply elem_of_app in Hacc as [Hacc|Hnew]; [now left|].
      right. exists u. split; [left|].
      unfold createFileContextResponseMessage, getContextMessageWithResponse in Hnew.
      apply elem_of_cons in Hnew as [->|Hnew].
      * simpl in Hfile. inversion Hfile; subst. reflexivity.
      * apply list_elem_of_singleton in Hnew as ->. discriminate Hfile.
    + right. exists u'. split; [now right|exact Hname].
Qed.

(** C10.  A search issued without an exclude pattern runs under the default
    pattern [**/{.*,node_modules,snap*}/**]: provided the search applies
    the exclude pattern it is given, no file inside a dot-directory,
    [node_modules] or a [snap*] directory is returned by [findVSCodeFiles],
    and no such file is named by the context of a test-file search whose
    unit-test flag is false. *)
Theorem default_exclude_applied (Hexclude : HonoursExclude) :
  (forall globalPattern excludePattern maxResults found u,
     truthy excludePattern = false ->
     findVSCodeFiles globalPattern excludePattern maxResults = Ok found ->
     u ∈ found ->
     excludedOr excludePattern defaultExcludePattern = "**/{.*,node_modules,snap*}/**"
     /\ ~ insideExcludedDirectory (asRelativePath (fsPath u)))
  /\ (forall name msgs m f,
        getCodebaseTestFilesContext name false = Ok msgs
        \/ getCurrentTestFileContext name false = Ok msgs ->
        m ∈ msgs -> file m = Some f ->
        ~ insideExcludedDirectory (fileName f)).
Proof.
  assert (Hfind : forall globalPattern excludePattern maxResults found u,
     truthy excludePattern = false ->
     findVSCodeFiles globalPattern excludePattern maxResults = Ok found ->
     u ∈ found ->
     excludedOr excludePattern defaultExcludePattern = "**/{.*,node_modules,snap*}/**"
     /\ ~ insideExcludedDirectory (asRelativePath (fsPath u))).
  { intros globalPattern excludePattern maxResults found u Hnone Hrun Hin.
    assert (Hdefault : excludedOr excludePattern defaultExcludePattern = defaultExcludePattern).
    { unfold excludedOr. destruct excludePattern; [now rewrite Hnone|reflexivity]. }
    split; [exact Hdefault|].
    destruct (findVSCodeFiles_found _ _ _ _ _ Hrun Hin) as (token & found' & Hfound & Hin').
    rewrite Hdefault in Hfound.
    intros Hinside. apply GlobFacts.excluded_directory_matches in Hinside.
    rewrite (Hexclude _ _ _ _ _ _ Hfound Hin') in Hinside. discriminate. }
  split; [exact Hfind|].
  intros name msgs m f Hrun Hin Hfile.
  destruct Hrun as [Hrun|Hrun].
  - unfold getCodebaseTestFilesContext in Hrun. simpl in Hrun.
    destruct (findVSCodeFiles _ None 5) as [found|] eqn:Hsearch; [|discriminate].
    unfold await in Hrun.
    destruct (contextFromFilesLoop_files _ _ _ _ _ Hrun Hin Hfile) as [Hnil|(u & Hu & ->)];
      [inversion Hnil|].
    apply list_elem_of_In, filter_In in Hu as [Hu _]. apply list_elem_of_In in Hu.
    exact (proj2 (Hfind _ None 5 found u eq_refl Hsearch Hu)).
  - unfold getCurrentTestFileContext in Hrun. simpl in Hrun.
    destruct (findVSCodeFiles _ None 5) as [found|] eqn:Hsearch; [|discriminate].
    unfold await in Hrun.
    destruct (List.find _ found) as [testFile|] eqn:Htest.
    + apply find_some in Htest as [Hu _]. apply list_elem_of_In in Hu.
      destruct (getFilePathContext_total (fsPath testFile)) as [context Hctx].
      rewrite Hctx in Hrun. inversion Hrun; subst.
      unfold createFileContextResponseMessage, getContextMessageWithResponse in Hin.
      apply elem_of_cons in Hin as [->|Hin].
      * simpl in Hfile. inversion Hfile; subst. simpl.
        exact (proj2 (Hfind _ None 5 found testFile eq_refl Hsearch Hu)).
      * apply list_elem_of_singleton in Hin as ->. discriminate Hfile.
    + inversion Hrun; subst. inversion Hin.
Qed.

End WithWorkspace.

(** C9.  For ["bar.ts"] the pattern built without [allTestFiles] is
    [**/*{test_bar,bar_test,test.bar,bar.test,barTest}.ts], and it matches
    each of [bar.test.ts], [bar_test.ts], [test_bar.ts], [test.bar.ts] and
    [barTest.ts], at the workspace root and below a directory. *)
Theorem test_pattern_matches_conventions :
  createVSCodeTestSearchPattern "bar.ts" None
  = "**/*{test_bar,bar_test,test.bar,bar.test,barTest}.ts"
  /\ Forall (fun name => Glob.matches (createVSCodeTestSearchPattern "bar.ts" None) name = true)
       ["bar.test.ts"; "bar_test.ts"; "test_bar.ts"; "test.bar.ts"; "barTest.ts"]
  /\ Forall (fun name => Glob.matches (createVSCodeTestSearchPattern "bar.ts" None) name = true)
       ["src/bar.test.ts"; "src/bar_test.ts"; "src/test_bar.ts"; "src/test.bar.ts";
        "src/util/barTest.ts"].
Proof.
  split; [reflexivity|].
  split; repeat constructor.
Qed.


(** *** The example workspace observes its token and its exclude pattern *)

Lemma disk_honours_cancellation (disk : list Disk.Entry) (time : Z) :
  @HonoursCancellation (Disk.workspace disk time).
Proof.
  intros pattern excluded maxResults token Hlate. simpl in *.
  apply Z.ltb_lt in Hlate. rewrite Hlate. exact I.
Qed.

Lemma disk_honours_exclude (disk : list Disk.Entry) (time : Z) :
  @HonoursExclude (Disk.workspace disk time).
Proof.
  intros pattern excluded maxResults token found u Hfound Hin. simpl in *.
  destruct (cancelledAfter token <? time); [discriminate|].
  inversion Hfound; subst; clear Hfound.
  apply (subseteq_take (Z.to_nat maxResults)) in Hin.
  apply list_elem_of_In, filter_In in Hin as [_ Hkeep].
  apply andb_true_iff in Hkeep as [_ Hkeep]. now apply negb_true_iff in Hkeep.
Qed.

(** Witness of C4: [empty.ts] (0 bytes) and [huge.bin] (1,000,001 bytes) are
    listed; only [bar.ts] and [zzz.ts] produce fragments. *)
Lemma scans_respect_size_ceiling_witness :
  @getCurrentDirFilteredContext Disk.quick Disk.prompt Disk.src
     (Disk.entry <$> ["empty.ts"; "bar.ts"; "huge.bin"; "zzz.ts"]) "foo.ts" 5
  = Ok (flat_map (@fragmentsOf Disk.quick Disk.prompt Disk.src)
          (Disk.entry <$> ["bar.ts"; "zzz.ts"]))
  /\ exists kept,
       kept `sublist_of` (Disk.entry <$> ["empty.ts"; "bar.ts"; "huge.bin"; "zzz.ts"])
       /\ flat_map (@fragmentsOf Disk.quick Disk.prompt Disk.src)
            (Disk.entry <$> ["bar.ts"; "zzz.ts"])
          = flat_map (@fragmentsOf Disk.quick Disk.prompt Disk.src) kept
       /\ forall file fileSize,
            @stat Disk.quick (@joinPath Disk.quick Disk.src file.1) = Ok fileSize ->
            size fileSize = 0 \/ 1000000 < size fileSize ->
            file ∉ kept.
Proof.
  split; [vm_compute; reflexivity|].
  apply (@scans_respect_size_ceiling Disk.quick Disk.prompt Disk.src
           (Disk.entry <$> ["empty.ts"; "bar.ts"; "huge.bin"; "zzz.ts"]) "foo.ts" 5).
  left. vm_compute. reflexivity.
Defined.

(** Witness of C5: with target [foo.ts], the scan of [bar.ts],
    [foo.test.ts], [zzz.ts] stops at [foo.test.ts] although only two of the
    five allowed pairs were emitted. *)
Lemma early_exit_on_matching_name_witness :
  @sizeAccepted Disk.quick Disk.src (Disk.entry "foo.test.ts") = true
  /\ "foo.test.ts" <> "foo.ts"
  /\ matchesCurrentFile "foo.test.ts" "foo.ts" = true
  /\ @currentDirLoop Disk.quick Disk.prompt Disk.src "foo.ts" (fileNameWithoutExtOf "foo.ts") 5
       (Disk.entry <$> ["foo.test.ts"; "zzz.ts"]) []
     = Ok ([] ++ @fragmentsOf Disk.quick Disk.prompt Disk.src (Disk.entry "foo.test.ts"))
  /\ @getCurrentDirFilteredContext Disk.quick Disk.prompt Disk.src
       (Disk.entry <$> ["bar.ts"; "foo.test.ts"; "zzz.ts"]) "foo.ts" 5
     = @getCurrentDirFilteredContext Disk.quick Disk.prompt Disk.src
         (Disk.entry <$> ["bar.ts"; "foo.test.ts"]) "foo.ts" 5.
Proof.
  split; [reflexivity|]. split; [discriminate|]. split; [reflexivity|].
  apply (@early_exit_on_matching_name Disk.quick Disk.prompt Disk.src "foo.ts" 5
           (Disk.entry "foo.test.ts") [Disk.entry "bar.ts"] [Disk.entry "zzz.ts"] []);
    [reflexivity|discriminate|reflexivity].
Defined.

(** Counterexample to C5 as stated.  (1) Target [foo.ts] and the candidate
    [foo.ts] itself: the names agree, yet the candidate is skipped as the
    current file and the scan goes on to [bar.ts].  (2) Target [foobar.ts]
    and the candidate [foo.ts]: the candidate's name without extension is a
    prefix of the target's, yet the scan goes on to [zzz.ts], because the
    code asks whether the candidate's name starts or ends with the target's
    stem, not the converse. *)
Lemma earlyExit_counterexample :
  ~ @Claimed.earlyExit Disk.quick Disk.prompt Disk.src
      [] (Disk.entry "foo.ts") [Disk.entry "bar.ts"] "foo.ts" 5
  /\ ~ @Claimed.earlyExit Disk.quick Disk.prompt Disk.src
      [] (Disk.entry "foo.ts") [Disk.entry "zzz.ts"] "foobar.ts" 5.
Proof.
  split; intros Hexit; specialize (Hexit eq_refl); vm_compute in Hexit; discriminate Hexit.
Qed.

(** Witness of C6: with [maxFiles = 1] the scan of [bar.ts], [zzz.ts]
    returns the one pair of [bar.ts]. *)
Lemma at_most_maxFiles_pairs_witness :
  1 <= 1
  /\ @getCurrentDirFilteredContext Disk.quick Disk.prompt Disk.src
       (Disk.entry <$> ["bar.ts"; "zzz.ts"]) "foo.ts" 1
     = Ok (@fragmentsOf Disk.quick Disk.prompt Disk.src (Disk.entry "bar.ts"))
  /\ Z.of_nat (length (@fragmentsOf Disk.quick Disk.prompt Disk.src (Disk.entry "bar.ts")))
     <= 2 * 1.
Proof.
  split; [lia|]. split; [vm_compute; reflexivity|].
  apply (proj1 (@at_most_maxFiles_pairs Disk.quick Disk.prompt Disk.src "foo.ts" 1 ltac:(lia))
           (Disk.entry <$> ["bar.ts"; "zzz.ts"])).
  vm_compute. reflexivity.
Defined.

(** Counterexample to C6 as stated: with [maxFiles = 0] the scan of
    [bar.ts], [zzz.ts] returns one pair, two messages. *)
Lemma cappedAt_counterexample :
  ~ @Claimed.cappedAt Disk.quick Disk.prompt Disk.src
      (Disk.entry <$> ["bar.ts"; "zzz.ts"]) "foo.ts" 0.
Proof.
  intros Hcap.
  specialize (Hcap (@fragmentsOf Disk.quick Disk.prompt Disk.src (Disk.entry "bar.ts"))).
  vm_compute in Hcap. apply Hcap; reflexivity.
Qed.

(** Witness of C8: [locked.ts] cannot be read; the scans of [locked.ts],
    [bar.ts], [zzz.ts] return a pair for each, the first with the empty
    text. *)
Lemma read_errors_do_not_abort_witness :
  Forall (fun file => isOk (@stat Disk.quick (@joinPath Disk.quick Disk.src file.1)) = true)
    (Disk.entry <$> ["locked.ts"; "bar.ts"; "zzz.ts"])
  /\ isOk (@readFile Disk.quick (@joinPath Disk.quick Disk.src "locked.ts")) = false
  /\ @candidatesRead Disk.quick Disk.src "foo.ts" 5
       (Disk.entry <$> ["locked.ts"; "bar.ts"; "zzz.ts"]) 0
     = Disk.entry <$> ["locked.ts"; "bar.ts"; "zzz.ts"]
  /\ @getCurrentDirFilteredContext Disk.quick Disk.prompt Disk.src
       (Disk.entry <$> ["locked.ts"; "bar.ts"; "zzz.ts"]) "foo.ts" 5
     = Ok (flat_map (@fragmentsOf Disk.quick Disk.prompt Disk.src)
             (@candidatesRead Disk.quick Disk.src "foo.ts" 5
                (Disk.entry <$> ["locked.ts"; "bar.ts"; "zzz.ts"]) 0))
  /\ @fragmentsOf Disk.quick Disk.prompt Disk.src (Disk.entry "locked.ts")
     = @getContextMessageWithResponse Disk.prompt
         (@populateContextTemplateFromText Disk.prompt templateText
            (@truncateText Disk.prompt "" (@MAX_CURRENT_FILE_TOKENS Disk.prompt))
            "src/locked.ts")
         (fileNamed "src/locked.ts").
Proof.
  assert (Hstats : Forall (fun file =>
            isOk (@stat Disk.quick (@joinPath Disk.quick Disk.src file.1)) = true)
            (Disk.entry <$> ["locked.ts"; "bar.ts"; "zzz.ts"])) by (repeat constructor).
  destruct (@read_errors_do_not_abort Disk.quick Disk.prompt Disk.src
              (Disk.entry <$> ["locked.ts"; "bar.ts"; "zzz.ts"]) "foo.ts" 5 Hstats)
    as (Hscan & _ & Hunreadable).
  split; [exact Hstats|]. split; [reflexivity|]. split; [reflexivity|].
  split; [exact Hscan|].
  exact (proj2 (Hunreadable (Disk.entry "locked.ts") eq_refl)).
Defined.

(** Counterexample to C8 as stated.  (1) [locked.ts] cannot be read and is
    not skipped: the scan with it returns a pair for it, the scan without it
    does not.  (2) [gone.ts] cannot be stat-ed: the scan with it rejects. *)
Lemma failingFileSkipped_counterexample :
  ~ @Claimed.failingFileSkipped Disk.quick Disk.prompt Disk.src
      [] (Disk.entry "locked.ts") [Disk.entry "bar.ts"] "foo.ts" 5
  /\ ~ @Claimed.failingFileSkipped Disk.quick Disk.prompt Disk.src
      [] (Disk.entry "gone.ts") [Disk.entry "bar.ts"] "foo.ts" 5.
Proof.
  split; intros Hskip.
  - destruct (Hskip (or_intror eq_refl)) as (msgs & Hwith & Hwithout).
    vm_compute in Hwith, Hwithout. rewrite <- Hwith in Hwithout. discriminate Hwithout.
  - destruct (Hskip (or_introl eq_refl)) as (msgs & Hwith & _).
    vm_compute in Hwith. discriminate Hwith.
Qed.

(** Witness of C7: a search that needs 20001 ms returns the empty list,
    although the same search, when quick, finds test files. *)
Lemma findVSCodeFiles_empty_on_failure_witness :
  20000 < @searchTime Disk.slow "**/*test*.ts" defaultExcludePattern 5
  /\ @findVSCodeFiles Disk.quick "**/*test*.ts" None 5
     = Ok [ {| fsPath := "/repo/src/foo.test.ts" |}; {| fsPath := "/repo/src/bar.test.ts" |} ]
  /\ @findVSCodeFiles Disk.slow "**/*test*.ts" None 5 = Ok [].
Proof.
  split; [reflexivity|]. split; [vm_compute; reflexivity|].
  apply (@findVSCodeFiles_empty_on_failure Disk.slow "**/*test*.ts" None 5).
  - apply disk_honours_cancellation.
  - reflexivity.
Defined.

(** Witness of C10: [node_modules/pkg/bar.test.ts] matches [**/*test*.ts]
    but is not among the files found without an exclude pattern. *)
Lemma default_exclude_applied_witness :
  Glob.matches "**/*test*.ts" "node_modules/pkg/bar.test.ts" = true
  /\ @findVSCodeFiles Disk.quick "**/*test*.ts" None 5
     = Ok [ {| fsPath := "/repo/src/foo.test.ts" |}; {| fsPath := "/repo/src/bar.test.ts" |} ]
  /\ ~ insideExcludedDirectory
         (@asRelativePath Disk.quick (fsPath {| fsPath := "/repo/src/bar.test.ts" |})).
Proof.
  split; [vm_compute; reflexivity|]. split; [vm_compute; reflexivity|].
  apply (proj1 (@default_exclude_applied Disk.quick Disk.prompt
                  (disk_honours_exclude Disk.files 1000))
           "**/*test*.ts" None 5
           [ {| fsPath := "/repo/src/foo.test.ts" |}; {| fsPath := "/repo/src/bar.test.ts" |} ]
           {| fsPath := "/repo/src/bar.test.ts" |});
    [reflexivity|vm_compute; reflexivity|].
  apply elem_of_cons. right. apply elem_of_cons. now left.
Defined.

End HelpersFacts.

(** * Further properties of the Interaction class *)

Module TurnFacts.
Import Interaction Turn InteractionFacts.

Section WithContextFilter.
Context `{ContextFilter}.

Lemma walkDropping_sublist (n : nat) :
  forall l : list ContextMessage, (length l <= n)%nat -> walkDropping l `sublist_of` l.
Proof.
  induction n as [|n IH]; intros [|m rest] Hlen; simpl in *;
    [constructor|lia|constructor|].
  destruct (droppedBySpec m).
  - apply sublist_cons. destruct rest as [|m' rest']; [constructor|].
    apply sublist_cons, IH. simpl in Hlen. lia.
  - apply sublist_skip, IH. lia.
Qed.

(** X1.  What [removeCodyIgnoredFiles] keeps is a subsequence of the
    context, in the same order, and none of the fragments it keeps is an
    ignored human fragment. *)
Theorem filterIgnored_sublist_clean (msgs : list ContextMessage) :
  filterIgnored msgs `sublist_of` msgs
  /\ Forall (fun m => ignoredMessage m = false) (filterIgnored msgs)
  /\ (length (filterIgnored msgs) <= length msgs)%nat.
Proof.
  rewrite filterIgnored_walkDropping.
  assert (Hsub : walkDropping msgs `sublist_of` msgs)
    by (apply (walkDropping_sublist (length msgs)); lia).
  split; [exact Hsub|]. split.
  - eapply Forall_impl; [apply (walkDropping_kept (length msgs)); lia|].
    intros m Hm. now rewrite ignoredMessage_droppedBySpec.
  - now apply sublist_length.
Qed.

Lemma walkDropping_interleave (pairs : list (ContextMessage * ContextMessage)) :
  Forall (fun p => speaker p.2 = assistant) pairs ->
  walkDropping (interleave pairs)
  = interleave (List.filter (fun p => negb (ignoredMessage p.1)) pairs).
Proof.
  induction 1 as [|[h a] pairs Hack _ IH]; [reflexivity|].
  simpl in *. rewrite <- ignoredMessage_droppedBySpec.
  destruct (ignoredMessage h); simpl; [exact IH|].
  assert (droppedBySpec a = false) as ->.
  { unfold droppedBySpec. now rewrite Hack. }
  now rewrite IH.
Qed.

(** X2.  On a context made of human/assistant pairs the filter removes
    exactly the pairs whose human half is ignored, and keeps the other
    pairs whole. *)
Theorem filterIgnored_removes_pairs (pairs : list (ContextMessage * ContextMessage))
    (Hpaired : Forall (fun p => speaker p.2 = assistant) pairs) :
  filterIgnored (interleave pairs)
  = interleave (List.filter (fun p => negb (ignoredMessage p.1)) pairs).
Proof. rewrite filterIgnored_walkDropping. now apply walkDropping_interleave. Qed.

(** X3.  The skip after an ignored human fragment is positional: the next
    element is dropped whatever it is, also when it is a human fragment of a
    file that is not ignored, and the walk resumes after it. *)
Theorem filterIgnored_skips_next (ign next : ContextMessage) (rest : list ContextMessage)
    (Hign : ignoredMessage ign = true) :
  filterIgnored (ign :: next :: rest) = filterIgnored rest
  /\ filterIgnored [ign] = [].
Proof.
  rewrite !filterIgnored_walkDropping. simpl.
  rewrite <- ignoredMessage_droppedBySpec, Hign. split; reflexivity.
Qed.

(** X4.  [hasContext()] answers whether [getFullContext()] would return a
    non-empty list, and leaves the object as [getFullContext()] leaves it. *)
Theorem hasContext_agrees_with_getFullContext (this : t) (msgs : list ContextMessage)
    (Hheld : fullContext this = Ok msgs) :
  fst (hasContext this) = Ok (bool_decide (filterIgnored msgs <> []))
  /\ fst (getFullContext this) = Ok (filterIgnored msgs)
  /\ snd (hasContext this) = snd (getFullContext this).
Proof.
  unfold hasContext, getFullContext, removeCodyIgnoredFiles. rewrite Hheld. simpl.
  rewrite copyMessage_id. repeat split.
  destruct (filterIgnored msgs) as [|m l]; reflexivity.
Qed.

(** X5.  When the context promise rejects, [getFullContext()],
    [hasContext()], [toChatPromise()] and [toJSON()] all reject with that
    error, and the object is left as it was. *)
Theorem rejected_context_propagates (this : t) (e : Error)
    (Hrejected : fullContext this = Err e) :
  getFullContext this = (Err e, this)
  /\ hasContext this = (Err e, this)
  /\ toChatPromise this = Err e
  /\ toJSON this = Err e.
Proof.
  unfold getFullContext, hasContext, removeCodyIgnoredFiles, toChatPromise, toJSON.
  rewrite Hrejected. repeat split.
Qed.

Lemma usedContext_afterAll (cs : list Call) :
  forall this : t,
    existsb setsUsedContext cs = false ->
    usedContextFiles (afterAll cs this) = usedContextFiles this
    /\ usedPreciseContext (afterAll cs this) = usedPreciseContext this.
Proof.
  unfold afterAll.
  induction cs as [|c cs IH]; intros this Hnone; simpl in *; [by split|].
  apply orb_false_iff in Hnone as [Hc Hcs].
  destruct (IH (after c this) Hcs) as [-> ->].
  destruct c; try discriminate Hc; simpl; try (split; reflexivity).
  - unfold getFullContext, removeCodyIgnoredFiles.
    destruct (fullContext this); split; reflexivity.
  - unfold hasContext, removeCodyIgnoredFiles.
    destruct (fullContext this); split; reflexivity.
Qed.

(** X6.  After [setUsedContext(files, precise)], and whatever calls other
    than [setUsedContext] follow, [toChat()] returns two messages, the human
    one then the assistant one, both carrying [files] and [precise]. *)
Theorem toChat_carries_used_context (this : t) (files : list ContextFile)
    (precise : list PreciseContext) (cs : list Call)
    (Hkept : existsb setsUsedContext cs = false) :
  let this' := afterAll cs (setUsedContext files precise this) in
  toChat this'
  = [ {| chatMessage := humanMessage this'; contextFiles := files;
         preciseContext := precise |};
      {| chatMessage := assistantMessage this'; contextFiles := files;
         preciseContext := precise |} ].
Proof.
  intros this'. unfold toChat.
  destruct (usedContext_afterAll cs (setUsedContext files precise this) Hkept) as [Hf Hp].
  fold this' in Hf, Hp. rewrite Hf, Hp. reflexivity.
Qed.

Lemma metadata_afterAll (cs : list Call) :
  forall (this : t) (md : ChatMetadata),
    existsb setsMetadata cs = false ->
    metadata this = Some md ->
    msgMetadata (humanMessage this) = Some md ->
    msgMetadata (assistantMessage this) = Some md ->
    metadata (afterAll cs this) = Some md
    /\ msgMetadata (humanMessage (afterAll cs this)) = Some md
    /\ msgMetadata (assistantMessage (afterAll cs this)) = Some md.
Proof.
  unfold afterAll.
  induction cs as [|c cs IH]; intros this md Hnone Hm Hh Ha; simpl in *; [by repeat split|].
  apply orb_false_iff in Hnone as [Hc Hcs].
  apply IH; [exact Hcs|..]; destruct c; try discriminate Hc; simpl; try assumption;
    unfold getFullContext, hasContext, removeCodyIgnoredFiles;
    destruct (fullContext this); simpl; assumption.
Qed.

(** X7.  Once [setMetadata(md)] was called, both messages carry [md] after
    any calls other than [setMetadata]; in particular a message given to
    [setAssistantMessage] loses the metadata it came with and gets [md]. *)
Theorem metadata_stamped (this : t) (md : ChatMetadata) (cs : list Call)
    (Hkept : existsb setsMetadata cs = false) :
  let this' := afterAll cs (setMetadata md this) in
  msgMetadata (getHumanMessage this') = Some md
  /\ msgMetadata (getAssistantMessage this') = Some md.
Proof.
  intros this'.
  destruct (metadata_afterAll cs (setMetadata md this) md Hkept) as (_ & Hh & Ha);
    try reflexivity.
  split; assumption.
Qed.

(** X8.  No call changes the timestamp or the text of the human message. *)
Theorem timestamp_and_question_fixed (this : t) (cs : list Call) :
  timestamp (afterAll cs this) = timestamp this
  /\ body (humanMessage (afterAll cs this)) = body (humanMessage this).
Proof.
  unfold afterAll. revert this.
  induction cs as [|c cs IH]; intros this; simpl; [by split|].
  destruct (IH (after c this)) as [-> ->].
  destruct c; simpl; try (split; reflexivity);
    unfold getFullContext, hasContext, removeCodyIgnoredFiles;
    destruct (fullContext this); split; reflexivity.
Qed.

(** X9.  Whatever was called on an Interaction before, [getFullContext()]
    returns the filtered form of the context the Interaction was built
    with: reads converge, the cached list is never filtered further. *)
Theorem getFullContext_stable (h a : InteractionMessage) (raw : list ContextMessage)
    (files : list ContextFile) (precise : list PreciseContext) (ts : string)
    (cs : list Call) :
  fst (getFullContext (afterAll cs (new h a (Ok raw) files precise ts)))
  = Ok (filterIgnored raw).
Proof.
  unfold getFullContext, removeCodyIgnoredFiles.
  rewrite (fullContext_afterAll cs _ raw) by reflexivity. simpl.
  rewrite copyMessage_id.
  destruct (existsb readsContext cs); [now rewrite filterIgnored_idem|reflexivity].
Qed.

End WithContextFilter.

End TurnFacts.

(** * Further properties of the directory scans and of the test-file search *)

Module ScanFacts.
Import Helpers HelpersFacts.

Section WithWorkspace.
Context `{Workspace} `{Prompt}.

Lemma currentDirLoop_not_current (dirUri : URI) (cur stemOfCur : string) (maxFiles : Z)
    (filesInDir : list (string * FileType)) :
  forall acc msgs,
    currentDirLoop dirUri cur stemOfCur maxFiles filesInDir acc = Ok msgs ->
    exists kept,
      kept `sublist_of` filesInDir
      /\ Forall (fun file => file.1 <> cur) kept
      /\ msgs = acc ++ flat_map (fragmentsOf dirUri) kept.
Proof.
  induction filesInDir as [|file rest IH]; intros acc msgs Hrun; simpl in Hrun.
  - inversion Hrun; subst. exists []. rewrite app_nil_r. repeat split; constructor.
  - destruct (stat (joinPath dirUri file.1)) as [fileSize|]; [|discriminate].
    unfold await in Hrun.
    destruct ((size fileSize >? 1000000) || (size fileSize =? 0)).
    { destruct (IH _ _ Hrun) as (kept & Hsub & Hall & ->).
      exists kept. repeat split; [by apply sublist_cons|done]. }
    destruct (String.eqb_spec file.1 cur) as [Heq|Hne].
    { destruct (IH _ _ Hrun) as (kept & Hsub & Hall & ->).
      exists kept. repeat split; [by apply sublist_cons|done]. }
    rewrite pushFileContext_app in Hrun. fold (fragmentsOf dirUri file) in Hrun.
    assert (Hone : acc ++ fragmentsOf dirUri file
                   = acc ++ flat_map (fragmentsOf dirUri) [file]).
    { simpl. now rewrite app_nil_r. }
    destruct (Str.startsWith file.1 stemOfCur || Str.endsWith file.1 stemOfCur).
    { inversion Hrun; subst. exists [file]. repeat split; [|by constructor|exact Hone].
      apply sublist_skip, sublist_nil_l. }
    destruct (Z.of_nat (length (acc ++ fragmentsOf dirUri file)) >=? maxFiles * 2).
    { inversion Hrun; subst. exists [file]. repeat split; [|by constructor|exact Hone].
      apply sublist_skip, sublist_nil_l. }
    destruct (IH _ _ Hrun) as (kept & Hsub & Hall & ->).
    exists (file :: kept). repeat split; [by apply sublist_skip|by constructor|].
    simpl. now rewrite app_assoc.
Qed.

(** X10.  [getCurrentDirFilteredContext] produces no fragment for a listing
    entry whose name is [currentFileName]: what it returns is made of the
    pairs of entries with another name, in listing order. *)
Theorem current_file_not_scanned (dirUri : URI) (filesInDir : list (string * FileType))
    (currentFileName : string) (maxFiles : Z) (msgs : list ContextMessage)
    (Hscan : getCurrentDirFilteredContext dirUri filesInDir currentFileName maxFiles = Ok msgs) :
  exists kept,
    kept `sublist_of` filesInDir
    /\ msgs = flat_map (fragmentsOf dirUri) kept
    /\ forall file, file ∈ kept -> file.1 <> currentFileName.
Proof.
  destruct (currentDirLoop_not_current _ _ _ _ _ _ _ Hscan) as (kept & Hsub & Hall & ->).
  exists kept. repeat split; [exact Hsub|].
  now apply Forall_forall.
Qed.




Lemma currentDirLoop_single (dirUri : URI) (cur stemOfCur : string) (maxFiles : Z)
    (filesInDir : list (string * FileType)) (msgs : list ContextMessage) :
  maxFiles <= 0 \/ stemOfCur = "" ->
  currentDirLoop dirUri cur stemOfCur maxFiles filesInDir [] = Ok msgs ->
  (length msgs <= 2)%nat.
Proof.
  intros Hedge.
  induction filesInDir as [|file rest IH]; intros Hrun; simpl in Hrun.
  - inversion Hrun; subst. simpl. lia.
  - destruct (stat (joinPath dirUri file.1)) as [fileSize|]; [|discriminate].
    unfold await in Hrun.
    destruct ((size fileSize >? 1000000) || (size fileSize =? 0)); [auto|].
    destruct (String.eqb file.1 cur); [auto|].
    destruct Hedge as [Hcap| ->].
    + destruct (Str.startsWith file.1 stemOfCur || Str.endsWith file.1 stemOfCur).
      { inversion Hrun; subst. now rewrite pushFileContext_length. }
      rewrite pushFileContext_length in Hrun.
      assert ((Z.of_nat (0 + 2)%nat >=? maxFiles * 2) = true) as Hge
        by (rewrite Z.geb_leb; apply Z.leb_le; simpl; lia).
      simpl in Hge. simpl in Hrun. rewrite Hge in Hrun.
      inversion Hrun; subst. now rewrite pushFileContext_length.
    + assert (Str.startsWith file.1 "" = true) as Hstart.
      { unfold Str.startsWith. simpl. now destruct (Str.chars file.1). }
      rewrite Hstart in Hrun. simpl in Hrun.
      inversion Hrun; subst. now rewrite pushFileContext_length.
Qed.

(** X12.  The cap and the early exit are tested after a file's pair is
    pushed.  So with [maxFiles <= 0], or with a current file name whose last
    segment starts with ['.'] or is empty (its stem is the empty string,
    which every name starts with), the scan returns right after the first
    file it reads: at most one pair. *)
Theorem scan_stops_after_first_read (dirUri : URI) (filesInDir : list (string * FileType))
    (currentFileName : string) (maxFiles : Z) (msgs : list ContextMessage)
    (Hedge : maxFiles <= 0 \/ fileNameWithoutExtOf currentFileName = "")
    (Hscan : getCurrentDirFilteredContext dirUri filesInDir currentFileName maxFiles = Ok msgs) :
  (length msgs <= 2)%nat.
Proof. eapply currentDirLoop_single; [exact Hedge|exact Hscan]. Qed.

(** *** Context of found files *)

Lemma getFilePathContext_value (filePath : string) :
  getFilePathContext filePath = Ok (contentOrEmpty filePath).
Proof.
  unfold getFilePathContext, contentOrEmpty. rewrite decodeVSCodeTextDoc_total. reflexivity.
Qed.

Lemma contextFromFilesLoop_value (files : list URI) :
  forall acc,
    contextFromFilesLoop files acc
    = Ok (acc ++ flat_map (fun u => createFileContextResponseMessage
                                      (contentOrEmpty (fsPath u)) (fsPath u)) files).
Proof.
  induction files as [|u files IH]; intros acc; simpl.
  - now rewrite app_nil_r.
  - rewrite getFilePathContext_value. unfold await. rewrite IH, <- app_assoc. reflexivity.
Qed.

(** X13.  [getContextMessageFromFiles] never rejects and returns one pair
    per file, in the order of the files: a file that cannot be read is not
    left out, it gets a pair built from the empty text. *)
Theorem getContextMessageFromFiles_one_pair_each (files : list URI) :
  exists msgs,
    getContextMessageFromFiles files = Ok msgs
    /\ msgs = flat_map (fun u => createFileContextResponseMessage
                                   (contentOrEmpty (fsPath u)) (fsPath u)) files
    /\ length msgs = (2 * length files)%nat
    /\ forall u, isOk (readFile {| fsPath := fsPath u |}) = false ->
                 contentOrEmpty (fsPath u) = "".
Proof.
  unfold getContextMessageFromFiles. rewrite contextFromFilesLoop_value.
  eexists. split; [reflexivity|]. split; [reflexivity|]. split.
  - rewrite app_nil_l.
    induction files as [|u files IH]; [reflexivity|].
    cbn [flat_map]. rewrite length_app, IH.
    unfold createFileContextResponseMessage, getContextMessageWithResponse. simpl. lia.
  - intros u Hread. unfold contentOrEmpty.
    destruct (readFile _); [discriminate|reflexivity].
Qed.

Lemma findVSCodeFiles_total (globalPattern : string) (excludePattern : option string)
    (maxResults : Z) :
  exists found, findVSCodeFiles globalPattern excludePattern maxResults = Ok found.
Proof.
  unfold findVSCodeFiles. destruct (findFiles _ _ _ _); simpl; eauto.
Qed.

Lemma getCurrentTestFileContext_total (name : string) (isUnitTest : bool) :
  exists msgs, getCurrentTestFileContext name isUnitTest = Ok msgs.
Proof.
  unfold getCurrentTestFileContext.
  destruct (findVSCodeFiles_total (createVSCodeTestSearchPattern name None)
              (testExcludePattern isUnitTest) 5) as [found ->].
  unfold await. destruct (List.find _ found) as [testFile|]; [|eauto].
  rewrite getFilePathContext_value. eauto.
Qed.

(** X14.  [getCurrentTestFileContext] never rejects and returns either
    nothing or the single pair of one found file, a file that
    [isValidTestFileName] accepts; when the search rejects it returns
    nothing. *)
Theorem getCurrentTestFileContext_at_most_one (name : string) (isUnitTest : bool) :
  exists msgs,
    getCurrentTestFileContext name isUnitTest = Ok msgs
    /\ (msgs = []
        \/ exists found testFile,
             findVSCodeFiles (createVSCodeTestSearchPattern name None)
               (testExcludePattern isUnitTest) 5 = Ok found
             /\ testFile ∈ found
             /\ isValidTestFileName (fsPath testFile) = true
             /\ msgs = createFileContextResponseMessage
                         (contentOrEmpty (fsPath testFile)) (fsPath testFile))
    /\ (isOk (findFiles (createVSCodeTestSearchPattern name None)
                (excludedOr (testExcludePattern isUnitTest) defaultExcludePattern) 5
                {| cancelledAfter := 20000 |}) = false ->
        msgs = []).
Proof.
  unfold getCurrentTestFileContext.
  destruct (findVSCodeFiles_total (createVSCodeTestSearchPattern name None)
              (testExcludePattern isUnitTest) 5) as [found Hfound].
  rewrite Hfound. unfold await.
  destruct (List.find _ found) as [testFile|] eqn:Hfind.
  - rewrite getFilePathContext_value. eexists. split; [reflexivity|]. split.
    + right. exists found, testFile. apply find_some in Hfind as [Hin Hvalid].
      apply list_elem_of_In in Hin. repeat split; assumption.
    + intros Hrej. unfold findVSCodeFiles in Hfound.
      destruct (findFiles _ _ _ _); [discriminate|].
      simpl in Hfound. inversion Hfound; subst. discriminate Hfind.
  - exists []. repeat split. now left.
Qed.

(** X15.  [getEditorTestContext] never rejects: it returns the context of
    the current test file when there is one, and otherwise the context of
    the test files found in the codebase. *)
Theorem getEditorTestContext_prefers_current (name : string) (isUnitTestRequest : bool) :
  exists current codebase,
    getCurrentTestFileContext name isUnitTestRequest = Ok current
    /\ getCodebaseTestFilesContext name isUnitTestRequest = Ok codebase
    /\ getEditorTestContext name isUnitTestRequest
       = Ok match current with
            | [] => codebase
            | _ :: _ => current
            end.
Proof.
  destruct (getCurrentTestFileContext_total name isUnitTestRequest) as [current Hcurrent].
  assert (Hcodebase : exists codebase,
            getCodebaseTestFilesContext name isUnitTestRequest = Ok codebase).
  { unfold getCodebaseTestFilesContext.
    destruct (findVSCodeFiles_total (createVSCodeTestSearchPattern name (Some true))
                (testExcludePattern isUnitTestRequest) 5) as [found ->].
    unfold await, getContextMessageFromFiles. rewrite contextFromFilesLoop_value. eauto. }
  destruct Hcodebase as [codebase Hcodebase].
  exists current, codebase. repeat split; [assumption..|].
  unfold getEditorTestContext. rewrite Hcurrent. unfold await.
  destruct current as [|m current]; simpl.
  - rewrite Hcodebase. simpl. now rewrite app_nil_r.
  - reflexivity.
Qed.

End WithWorkspace.

End ScanFacts.

(** * Search patterns against file names in general *)

Module PatternFacts.
Import Helpers Editor Glob GlobFacts.

Lemma chars_ofChars (l : list ascii) : Str.chars (Str.ofChars l) = l.
Proof. apply String.list_ascii_of_string_of_list_ascii. Qed.

Lemma ofChars_chars (s : string) : Str.ofChars (Str.chars s) = s.
Proof. apply String.string_of_list_ascii_of_string. Qed.

Lemma chars_append (a b : string) : Str.chars (a +:+ b) = Str.chars a ++ Str.chars b.
Proof.
  induction a as [|c a IH]; [reflexivity|].
  change (Str.chars (String c (a +:+ b)) = c :: Str.chars a ++ Str.chars b).
  unfold Str.chars in *. simpl. now rewrite IH.
Qed.

Lemma plain_app (a b : list ascii) : plain (a ++ b) <-> plain a /\ plain b.
Proof. unfold plain. rewrite forallb_app. apply andb_true_iff. Qed.

Lemma plain_cons (c : ascii) (l : list ascii) :
  plain (c :: l) <-> structural c = false /\ plain l.
Proof.
  unfold plain. simpl. rewrite andb_true_iff, negb_true_iff. reflexivity.
Qed.

Lemma structural_false (c : ascii) :
  structural c = false ->
  Ascii.eqb c "/" = false /\ Ascii.eqb c "{" = false
  /\ Ascii.eqb c "}" = false /\ Ascii.eqb c "," = false.
Proof.
  unfold structural. intros Hc.
  repeat (apply orb_false_iff in Hc as [Hc ?]). repeat split; assumption.
Qed.

(** *** Segments *)

Lemma splitChars_plain (l : list ascii) : plain l -> Str.splitChars "/" l = [l].
Proof.
  induction l as [|c l IH]; intros Hl; [reflexivity|].
  apply plain_cons in Hl as [Hc Hl]. apply structural_false in Hc as (Hslash & _).
  simpl. rewrite Hslash, (IH Hl). reflexivity.
Qed.

Lemma isGlobStar_long (p : list ascii) : (3 <= length p)%nat -> isGlobStar p = false.
Proof. destruct p as [|a [|b [|c p]]]; simpl; intros; try lia; reflexivity. Qed.

(** [**/name] matches every path whose last segment matches [name]. *)
Lemma segmentsMatch_file (g p name : list ascii) (above : list (list ascii)) :
  isGlobStar g = true ->
  isGlobStar p = false ->
  segmentMatches p name = true ->
  segmentsMatch [g; p] (above ++ [name]) = true.
Proof.
  intros Hg Hp Hname. induction above as [|a above IH].
  - rewrite app_nil_l, segmentsMatch_globstar by exact Hg.
    rewrite segmentsMatch_segment by exact Hp. rewrite Hname. reflexivity.
  - rewrite <- app_comm_cons, segmentsMatch_globstar by exact Hg.
    rewrite IH. apply orb_true_r.
Qed.

(** *** Characters *)

Lemma segmentMatches_cons (c : ascii) (p : list ascii) (d : ascii) (s : list ascii) :
  segmentMatches p s = true ->
  Ascii.eqb c d = true ->
  segmentMatches (c :: p) (d :: s) = true.
Proof.
  intros Hps Hcd. simpl.
  destruct (Ascii.eqb c "*") eqn:Hstar.
  - apply Ascii.eqb_eq in Hstar as ->.
    change (segmentMatches ("*"%char :: p) (d :: s) = true).
    rewrite segmentMatches_star.
    change (segmentMatches p (d :: s) || segmentMatches ("*"%char :: p) s = true).
    rewrite (segmentMatches_star p s), Hps. simpl. apply orb_true_r.
  - destruct (Ascii.eqb c "?"); [exact Hps|]. now rewrite Hcd, Hps.
Qed.

(** Every text matches itself, and a pattern extended by a text matches
    what it matched extended by that text. *)
Lemma segmentMatches_app (q p s : list ascii) :
  segmentMatches p s = true -> segmentMatches (q ++ p) (q ++ s) = true.
Proof.
  intros Hps. induction q as [|c q IH]; [exact Hps|].
  rewrite <- !app_comm_cons. apply segmentMatches_cons; [exact IH|apply Ascii.eqb_refl].
Qed.

Lemma segmentMatches_refl (p : list ascii) : segmentMatches p p = true.
Proof.
  rewrite <- (app_nil_r p) at 1. rewrite <- (app_nil_r p) at 2.
  now apply segmentMatches_app.
Qed.

(** A leading [*] absorbs any prefix. *)
Lemma segmentMatches_star_prefix (a p s : list ascii) :
  segmentMatches p s = true -> segmentMatches ("*"%char :: p) (a ++ s) = true.
Proof.
  intros Hps. induction a as [|c a IH]; rewrite segmentMatches_star.
  - rewrite app_nil_l, Hps. reflexivity.
  - rewrite <- app_comm_cons, IH. apply orb_true_r.
Qed.

(** [*word*] matches every name that contains [word]. *)
Lemma segmentMatches_contains (word a b : list ascii) :
  segmentMatches ("*"%char :: word ++ ["*"%char]) (a ++ word ++ b) = true.
Proof.
  apply segmentMatches_star_prefix, segmentMatches_app, segmentMatches_trailing_star.
Qed.

(** *** Braces *)

Lemma expand_plain (l : list ascii) : plain l -> expand None l = [l].
Proof.
  induction l as [|c l IH]; intros Hl; [reflexivity|].
  apply plain_cons in Hl as [Hc Hl]. apply structural_false in Hc as (_ & Hbrace & _).
  simpl. rewrite Hbrace, (IH Hl). reflexivity.
Qed.

Lemma expand_open_plain (l : list ascii) :
  plain l ->
  forall alts cur rest,
    expand (Some (alts, cur)) (l ++ rest) = expand (Some (alts, cur ++ l)) rest.
Proof.
  induction l as [|c l IH]; intros Hl alts cur rest.
  - now rewrite app_nil_r.
  - apply plain_cons in Hl as [Hc Hl]. apply structural_false in Hc as (_ & _ & Hclose & Hcomma).
    simpl. rewrite Hcomma, Hclose, (IH Hl).
    now rewrite <- app_assoc.
Qed.

(** *** Names of the form [stem.ext] *)

Lemma cutAtLastDot_dotless (ext : list ascii) : dotless ext -> Path.cutAtLastDot ext = None.
Proof.
  unfold dotless. induction ext as [|c ext IH]; intros Hext; [reflexivity|].
  simpl in *. apply andb_true_iff in Hext as [Hc Hext]. apply negb_true_iff in Hc.
  now rewrite (IH Hext), Hc.
Qed.

Lemma cutAtLastDot_name (stem ext : list ascii) :
  dotless ext -> Path.cutAtLastDot (stem ++ "."%char :: ext) = Some (stem, ext).
Proof.
  intros Hext. induction stem as [|c stem IH]; simpl.
  - now rewrite (cutAtLastDot_dotless ext Hext).
  - now rewrite IH.
Qed.

Lemma startsWithChars_app (p x : list ascii) : Str.startsWithChars (p ++ x) p = true.
Proof.
  induction p as [|c p IH]; simpl; [now destruct x|]. now rewrite Ascii.eqb_refl, IH.
Qed.

Section Named.
Variables (fsPath : string) (stem ext : list ascii).
Hypothesis Hname : Path.lastSegment fsPath = stem ++ "."%char :: ext.
Hypothesis Hstem : stem <> [].
Hypothesis Hext : ext <> [].
Hypothesis Hdotless : dotless ext.

Lemma extname_name : Path.extname fsPath = Str.ofChars ("."%char :: ext).
Proof using Hname Hstem Hext Hdotless.
  unfold Path.extname. rewrite Hname, (cutAtLastDot_name stem ext Hdotless).
  destruct stem as [|c stem']; [contradiction|].
  destruct (String.eqb_spec (Str.ofChars ((c :: stem') ++ "."%char :: ext)) "..") as [Heq|_];
    [|reflexivity].
  apply (f_equal Str.chars) in Heq. rewrite chars_ofChars in Heq.
  apply (f_equal length) in Heq. rewrite length_app in Heq. simpl in Heq.
  destruct ext; [contradiction|]. simpl in Heq. lia.
Qed.

Lemma basename_name :
  Path.basename fsPath (Some (Path.extname fsPath)) = Str.ofChars stem.
Proof using Hname Hstem Hext Hdotless.
  rewrite extname_name. unfold Path.basename. rewrite Hname, chars_ofChars.
  rewrite rev_app_distr, startsWithChars_app.
  rewrite bool_decide_eq_false_2.
  - simpl. rewrite length_app. simpl.
    replace (length stem + S (length ext) - S (length ext))%nat with (length stem) by lia.
    now rewrite take_app_length.
  - intros Heq. apply (f_equal length) in Heq. rewrite length_app in Heq.
    destruct stem; [contradiction|]. simpl in Heq. lia.
Qed.

Lemma basename_whole : Path.basename fsPath None = Str.ofChars (stem ++ "."%char :: ext).
Proof using Hname. unfold Path.basename. now rewrite Hname. Qed.

End Named.

(** The pattern built for [stem.ext], character by character. *)
Lemma testSearchPattern_chars (fsPath : string) (stem ext : list ascii) :
  Path.lastSegment fsPath = stem ++ "."%char :: ext ->
  stem <> [] -> ext <> [] -> dotless ext ->
  Str.chars (createVSCodeTestSearchPattern fsPath None)
  = Str.chars "**/*{test_" ++ stem ++ Str.chars "," ++ stem ++ Str.chars "_test,test."
    ++ stem ++ Str.chars "," ++ stem ++ Str.chars ".test," ++ stem ++ Str.chars "Test}"
    ++ "."%char :: ext.
Proof.
  intros Hname Hstem Hext Hdotless. unfold createVSCodeTestSearchPattern.
  rewrite (basename_name fsPath stem ext Hname Hstem Hext Hdotless).
  rewrite (extname_name fsPath stem ext Hname Hstem Hext Hdotless).
  cbn [from_option id]. rewrite !chars_append, !chars_ofChars.
  simpl. rewrite <- ?app_assoc. reflexivity.
Qed.

Lemma allTestsPattern_chars (fsPath : string) (stem ext : list ascii) :
  Path.lastSegment fsPath = stem ++ "."%char :: ext ->
  stem <> [] -> ext <> [] -> dotless ext ->
  Str.chars (createVSCodeTestSearchPattern fsPath (Some true))
  = Str.chars "**/*test*" ++ "."%char :: ext.
Proof.
  intros Hname Hstem Hext Hdotless. unfold createVSCodeTestSearchPattern.
  rewrite (extname_name fsPath stem ext Hname Hstem Hext Hdotless).
  cbn [from_option id]. rewrite !chars_append, !chars_ofChars. reflexivity.
Qed.

(** The alternatives of the pattern built for [stem.ext]. *)
Lemma testSearchPattern_expand (stem ext : list ascii) :
  plain stem -> plain ext ->
  expand None
    (Str.chars "**/*{test_" ++ stem ++ Str.chars "," ++ stem ++ Str.chars "_test,test."
     ++ stem ++ Str.chars "," ++ stem ++ Str.chars ".test," ++ stem ++ Str.chars "Test}"
     ++ "."%char :: ext)
  = (fun name => Str.chars "**/*" ++ name) <$> testNames stem ext.
Proof.
  intros Hstem Hext.
  cbn -[expand testNames]. cbn [expand Ascii.eqb Bool.eqb].
  rewrite (expand_open_plain stem Hstem). cbn [expand Ascii.eqb Bool.eqb app].
  rewrite (expand_open_plain stem Hstem). cbn [expand Ascii.eqb Bool.eqb app].
  rewrite (expand_open_plain stem Hstem). cbn [expand Ascii.eqb Bool.eqb app].
  rewrite (expand_open_plain stem Hstem). cbn [expand Ascii.eqb Bool.eqb app].
  rewrite (expand_open_plain stem Hstem). cbn [expand Ascii.eqb Bool.eqb app].
  rewrite (expand_plain ext Hext). unfold testNames. cbn.
  rewrite <- ?app_assoc. cbn. rewrite ?app_nil_r. reflexivity.
Qed.

Lemma testNames_plain (stem ext name : list ascii) :
  plain stem -> plain ext -> name ∈ testNames stem ext ->
  plain name /\ (2 <= length name)%nat.
Proof.
  intros Hstem Hext Hin. unfold testNames in Hin.
  assert (Hdot : plain ("."%char :: ext)) by (apply plain_cons; split; [reflexivity|exact Hext]).
  repeat (apply elem_of_cons in Hin as [->|Hin]); [..|inversion Hin];
    (split; [repeat (apply plain_app; split); try assumption; reflexivity
            |rewrite !length_app; simpl; lia]).
Qed.

Lemma segments_rooted (name : list ascii) :
  plain name -> segments (Str.chars "**/*" ++ name) = [Str.chars "**"; "*"%char :: name].
Proof.
  intros Hname. unfold segments.
  assert (Hseg : Str.splitChars "/" ("*"%char :: name) = ["*"%char :: name]).
  { apply splitChars_plain, plain_cons. split; [reflexivity|exact Hname]. }
  change (Str.chars "**/*" ++ name) with ("*"%char :: "*"%char :: "/"%char :: "*"%char :: name).
  cbn [Str.splitChars Ascii.eqb Bool.eqb]. cbn [Str.splitChars Ascii.eqb Bool.eqb] in Hseg.
  rewrite Hseg. reflexivity.
Qed.

(** A pattern [**/*name], for a pattern segment [name] of plain characters,
    matches every path whose last segment is matched by [*name]. *)
Lemma matches_rooted (name file : list ascii) (path : string) :
  plain name ->
  (2 <= length name)%nat ->
  segmentMatches ("*"%char :: name) file = true ->
  namedFile path file ->
  existsb (fun alt => segmentsMatch (segments alt) (segments (Str.chars path)))
    [Str.chars "**/*" ++ name] = true.
Proof.
  intros Hplain Hlen Hmatch Hfile. unfold namedFile in Hfile.
  apply last_Some in Hfile as [above ->].
  cbn [existsb]. rewrite (segments_rooted name Hplain), orb_false_r.
  apply segmentsMatch_file; [reflexivity| |exact Hmatch].
  apply isGlobStar_long. simpl. lia.
Qed.

(** X16.  For a file [stem.ext] (a non-empty stem, an extension without a
    further dot, the name free of [/], braces, commas and of the glob
    characters [*], [?], [[], []], [!] and backslash), the pattern of
    [createVSCodeTestSearchPattern] matches the five test-file names
    [test_stem.ext], [stem_test.ext], [test.stem.ext], [stem.test.ext] and
    [stemTest.ext], in whatever directory they lie. *)
Theorem test_pattern_matches_every_convention (fsPath : string) (stem ext name : list ascii)
    (path : string)
    (Hnamed : Path.lastSegment fsPath = stem ++ "."%char :: ext)
    (Hstem : stem <> []) (Hext : ext <> []) (Hdotless : dotless ext)
    (Hliteral_stem : literal stem) (Hliteral_ext : literal ext)
    (Hconvention : name ∈ testNames stem ext)
    (Hfile : namedFile path name) :
  Glob.matches (createVSCodeTestSearchPattern fsPath None) path = true.
Proof.
  unfold Glob.matches.
  rewrite (testSearchPattern_chars fsPath stem ext Hnamed Hstem Hext Hdotless).
  destruct Hliteral_stem as [Hplain_stem _]. destruct Hliteral_ext as [Hplain_ext _].
  rewrite (testSearchPattern_expand stem ext Hplain_stem Hplain_ext).
  destruct (testNames_plain stem ext name Hplain_stem Hplain_ext Hconvention) as [Hplain Hlen].
  apply existsb_exists. exists (Str.chars "**/*" ++ name). split.
  - apply list_elem_of_In, list_elem_of_fmap. now exists name.
  - pose proof (matches_rooted name name path Hplain Hlen) as Hrooted.
    cbn [existsb] in Hrooted. rewrite orb_false_r in Hrooted. apply Hrooted; [|exact Hfile].
    rewrite segmentMatches_star, segmentMatches_refl. reflexivity.
Qed.

(** X17.  With [allTestFiles] set, the pattern built for [stem.ext] (the
    extension free of [/], braces, commas, dots and glob characters)
    matches every file with the extension [ext] whose name contains [test],
    in whatever directory it lies. *)
Theorem all_tests_pattern_matches (fsPath : string) (stem ext a b : list ascii) (path : string)
    (Hnamed : Path.lastSegment fsPath = stem ++ "."%char :: ext)
    (Hstem : stem <> []) (Hext : ext <> []) (Hdotless : dotless ext)
    (Hliteral_ext : literal ext)
    (Hfile : namedFile path (a ++ Str.chars "test" ++ b ++ "."%char :: ext)) :
  Glob.matches (createVSCodeTestSearchPattern fsPath (Some true)) path = true.
Proof.
  destruct Hliteral_ext as [Hplain_ext _].
  unfold Glob.matches.
  rewrite (allTestsPattern_chars fsPath stem ext Hnamed Hstem Hext Hdotless).
  assert (Hplain : plain (Str.chars "test*" ++ "."%char :: ext)).
  { apply plain_app. split; [reflexivity|]. apply plain_cons. split; [reflexivity|exact Hplain_ext]. }
  change (Str.chars "**/*test*" ++ "."%char :: ext)
    with ("*"%char :: "*"%char :: "/"%char :: "*"%char :: Str.chars "test*" ++ "."%char :: ext).
  cbn [expand Ascii.eqb Bool.eqb]. rewrite (expand_plain _ Hplain).
  change (existsb (fun alt => segmentsMatch (segments alt) (segments (Str.chars path)))
            [Str.chars "**/*" ++ Str.chars "test*" ++ "."%char :: ext] = true).
  apply (matches_rooted _ (a ++ Str.chars "test" ++ b ++ "."%char :: ext));
    [exact Hplain|simpl; lia| |exact Hfile].
  apply segmentMatches_star_prefix.
  change (Str.chars "test*" ++ "."%char :: ext)
    with (Str.chars "test" ++ "*"%char :: "."%char :: ext).
  apply segmentMatches_app, segmentMatches_star_prefix, segmentMatches_refl.
Qed.

(** *** [createVSCodeSearchPattern] *)

Lemma removeFirstChars_extension (stem ext : list ascii) :
  dotless stem ->
  removeFirstChars ("."%char :: ext) (stem ++ "."%char :: ext) = stem.
Proof.
  unfold dotless. induction stem as [|c stem IH]; intros Hstem.
  - rewrite app_nil_l. unfold removeFirstChars.
    rewrite <- (app_nil_r ("."%char :: ext)) at 1. rewrite startsWithChars_app.
    now rewrite drop_all.
  - simpl in Hstem. apply andb_true_iff in Hstem as [Hc Hstem]. apply negb_true_iff in Hc.
    rewrite <- app_comm_cons.
    change (removeFirstChars ("."%char :: ext) (c :: stem ++ "."%char :: ext))
      with (if Ascii.eqb "." c && Str.startsWithChars (stem ++ "."%char :: ext) ext
            then drop (length ("."%char :: ext)) (c :: stem ++ "."%char :: ext)
            else c :: removeFirstChars ("."%char :: ext) (stem ++ "."%char :: ext)).
    rewrite Ascii.eqb_sym, Hc. simpl. now rewrite (IH Hstem).
Qed.

(** X18.  For a file [stem.ext] whose stem has no dot,
    [createVSCodeSearchPattern] is [/*stem*.ext], prefixed by [**] with
    [fromRoot]; and when the name is free of [/], braces, commas and glob
    characters, the rooted pattern matches every file with that extension
    whose name contains [stem], the file itself included. *)
Theorem search_pattern_of_simple_name (fsPath : string) (stem ext : list ascii)
    (Hnamed : Path.lastSegment fsPath = stem ++ "."%char :: ext)
    (Hstem : stem <> []) (Hext : ext <> [])
    (Hdotless_stem : dotless stem) (Hdotless : dotless ext) :
  (forall fromRoot,
     createVSCodeSearchPattern fsPath fromRoot
     = (if default false fromRoot then "**" else "")
       +:+ "/*" +:+ Str.ofChars stem +:+ "*" +:+ Str.ofChars ("."%char :: ext))
  /\ (literal stem -> literal ext ->
      forall a b path,
        namedFile path (a ++ stem ++ b ++ "."%char :: ext) ->
        Glob.matches (createVSCodeSearchPattern fsPath (Some true)) path = true).
Proof.
  assert (Hpattern : forall fromRoot,
     createVSCodeSearchPattern fsPath fromRoot
     = (if default false fromRoot then "**" else "")
       +:+ "/*" +:+ Str.ofChars stem +:+ "*" +:+ Str.ofChars ("."%char :: ext)).
  { intros fromRoot. unfold createVSCodeSearchPattern.
    rewrite (basename_whole fsPath stem ext Hnamed).
    rewrite (extname_name fsPath stem ext Hnamed Hstem Hext Hdotless).
    unfold removeFirst. rewrite !chars_ofChars.
    now rewrite (removeFirstChars_extension stem ext Hdotless_stem). }
  split; [exact Hpattern|].
  intros [Hplain_stem _] [Hplain_ext _] a b path Hfile.
  rewrite Hpattern. cbn [from_option id]. unfold Glob.matches.
  rewrite !chars_append, !chars_ofChars.
  assert (Hplain : plain (stem ++ "*"%char :: "."%char :: ext)).
  { apply plain_app. split; [exact Hplain_stem|].
    apply plain_cons. split; [reflexivity|]. apply plain_cons. split; [reflexivity|exact Hplain_ext]. }
  change (Str.chars "**" ++ Str.chars "/*" ++ stem ++ Str.chars "*" ++ "."%char :: ext)
    with ("*"%char :: "*"%char :: "/"%char :: "*"%char :: stem ++ "*"%char :: "."%char :: ext).
  cbn [expand Ascii.eqb Bool.eqb]. rewrite (expand_plain _ Hplain).
  change (existsb (fun alt => segmentsMatch (segments alt) (segments (Str.chars path)))
            [Str.chars "**/*" ++ stem ++ "*"%char :: "."%char :: ext] = true).
  apply (matches_rooted _ (a ++ stem ++ b ++ "."%char :: ext)); [exact Hplain| | |exact Hfile].
  - rewrite length_app. simpl. lia.
  - apply segmentMatches_star_prefix, segmentMatches_app, segmentMatches_star_prefix,
      segmentMatches_refl.
Qed.

(** *** The exclude pattern of unit-test searches *)

Lemma non_unit_directory_matches (path : string) :
  insideNonUnitDirectory path ->
  Glob.matches "**/*{e2e,integration,node_modules}*/**" path = true.
Proof.
  intros (above & d & below & Hsegs & Hbelow & a & b & word & Hword & ->).
  unfold Glob.matches. rewrite Hsegs.
  change (expand None (Str.chars "**/*{e2e,integration,node_modules}*/**"))
    with [Str.chars "**/*e2e*/**"; Str.chars "**/*integration*/**";
          Str.chars "**/*node_modules*/**"].
  cbn [existsb].
  change (segments (Str.chars "**/*e2e*/**"))
    with [Str.chars "**"; "*"%char :: Str.chars "e2e" ++ ["*"%char]; Str.chars "**"].
  change (segments (Str.chars "**/*integration*/**"))
    with [Str.chars "**"; "*"%char :: Str.chars "integration" ++ ["*"%char]; Str.chars "**"].
  change (segments (Str.chars "**/*node_modules*/**"))
    with [Str.chars "**"; "*"%char :: Str.chars "node_modules" ++ ["*"%char]; Str.chars "**"].
  repeat (apply elem_of_cons in Hword as [->|Hword]); [..|inversion Hword].
  - rewrite segmentsMatch_directory; [reflexivity..|apply segmentMatches_contains].
  - rewrite (segmentsMatch_directory _ ("*"%char :: Str.chars "integration" ++ ["*"%char]));
      [apply orb_true_r|reflexivity..|apply segmentMatches_contains].
  - rewrite (segmentsMatch_directory _ ("*"%char :: Str.chars "node_modules" ++ ["*"%char]));
      [rewrite !orb_true_r; reflexivity|reflexivity..|apply segmentMatches_contains].
Qed.

Section WithWorkspace.
Context `{Workspace} `{Prompt}.

(** X19.  A test-file search with the unit-test flag set runs under
    [**/*{e2e,integration,node_modules}*/**] instead of the default exclude
    pattern: provided the search applies the exclude pattern it is given,
    its context names no file below a directory whose name contains [e2e],
    [integration] or [node_modules]. *)
Theorem unit_test_search_excludes (Hexclude : HonoursExclude) (name : string)
    (msgs : list ContextMessage) (m : ContextMessage) (f : ContextFile)
    (Hrun : getCodebaseTestFilesContext name true = Ok msgs
            \/ getCurrentTestFileContext name true = Ok msgs)
    (Hin : m ∈ msgs) (Hfile : file m = Some f) :
  ~ insideNonUnitDirectory (fileName f).
Proof.
  assert (Hfind : forall globalPattern found u,
     findVSCodeFiles globalPattern (testExcludePattern true) 5 = Ok found ->
     u ∈ found -> ~ insideNonUnitDirectory (asRelativePath (fsPath u))).
  { intros globalPattern found u Hsearch Hu.
    destruct (HelpersFacts.findVSCodeFiles_found _ _ _ _ _ Hsearch Hu)
      as (token & found' & Hfound & Hin').
    intros Hinside. apply non_unit_directory_matches in Hinside.
    change (excludedOr (testExcludePattern true) defaultExcludePattern)
      with "**/*{e2e,integration,node_modules}*/**" in Hfound.
    rewrite (Hexclude _ _ _ _ _ _ Hfound Hin') in Hinside. discriminate. }
  destruct Hrun as [Hrun|Hrun].
  - unfold getCodebaseTestFilesContext in Hrun.
    destruct (findVSCodeFiles _ (testExcludePattern true) 5) as [found|] eqn:Hsearch;
      [|discriminate].
    unfold await in Hrun.
    destruct (HelpersFacts.contextFromFilesLoop_files _ _ _ _ _ Hrun Hin Hfile)
      as [Hnil|(u & Hu & ->)]; [inversion Hnil|].
    apply list_elem_of_In, filter_In in Hu as [Hu _]. apply list_elem_of_In in Hu.
    exact (Hfind _ found u Hsearch Hu).
  - unfold getCurrentTestFileContext in Hrun.
    destruct (findVSCodeFiles _ (testExcludePattern true) 5) as [found|] eqn:Hsearch;
      [|discriminate].
    unfold await in Hrun.
    destruct (List.find _ found) as [testFile|] eqn:Htest.
    + apply find_some in Htest as [Hu _]. apply list_elem_of_In in Hu.
      destruct (HelpersFacts.getFilePathContext_total (fsPath testFile)) as [context Hctx].
      rewrite Hctx in Hrun. inversion Hrun; subst.
      unfold createFileContextResponseMessage, getContextMessageWithResponse in Hin.
      apply elem_of_cons in Hin as [->|Hin].
      * simpl in Hfile. inversion Hfile; subst. simpl.
        exact (Hfind _ found testFile Hsearch Hu).
      * apply list_elem_of_singleton in Hin as ->. discriminate Hfile.
    + inversion Hrun; subst. inversion Hin.
Qed.

End WithWorkspace.

End PatternFacts.

(** * Editors, directory listings and folding ranges *)

Module EditorFacts.
Import Helpers Editor.

Section WithWindow.
Context `{Window}.

Lemma find_first {A} (p : A -> bool) (before : list A) (x : A) (after : list A) :
  p x = true ->
  Forall (fun y => p y = false) before ->
  List.find p (before ++ x :: after) = Some x.
Proof.
  intros Hx. induction 1 as [|y before Hy _ IH]; simpl; [now rewrite Hx|].
  now rewrite Hy.
Qed.

Lemma find_none {A} (p : A -> bool) (l : list A) :
  Forall (fun y => p y = false) l -> List.find p l = None.
Proof. induction 1 as [|y l Hy _ IH]; simpl; [reflexivity|]. now rewrite Hy. Qed.

(** X20.  [getActiveEditorFromVisibleEditors] returns no editor when none is
    visible, even if an active editor is set.  When some editor is visible
    it returns the active editor if there is one, and otherwise the first
    visible editor whose selection is not empty, or no editor when every
    visible selection is empty; it returns nothing else.  Without an editor
    [getCurrentVSCodeDocText] is the empty string, with one it is that
    editor's text. *)
Theorem active_editor_among_visible :
  (visibleTextEditors = [] -> getActiveEditorFromVisibleEditors = None)
  /\ (forall editor,
        visibleTextEditors <> [] ->
        activeTextEditor = Some editor ->
        getActiveEditorFromVisibleEditors = Some editor)
  /\ (forall before editor after,
        activeTextEditor = None ->
        visibleTextEditors = before ++ editor :: after ->
        selectionIsEmpty editor = false ->
        Forall (fun e => selectionIsEmpty e = true) before ->
        getActiveEditorFromVisibleEditors = Some editor)
  /\ (activeTextEditor = None ->
      Forall (fun e => selectionIsEmpty e = true) visibleTextEditors ->
      getActiveEditorFromVisibleEditors = None)
  /\ (forall editor,
        getActiveEditorFromVisibleEditors = Some editor ->
        visibleTextEditors <> []
        /\ (activeTextEditor = Some editor
            \/ (activeTextEditor = None
                /\ exists before after,
                     visibleTextEditors = before ++ editor :: after
                     /\ selectionIsEmpty editor = false
                     /\ Forall (fun e => selectionIsEmpty e = true) before)))
  /\ (forall range,
        getCurrentVSCodeDocText range
        = match getActiveEditorFromVisibleEditors with
          | Some editor => getText (document editor) range
          | None => ""
          end).
Proof.
  unfold getCurrentVSCodeDocText, getCurrentVSCodeDoc, getActiveEditorFromVisibleEditors.
  split; [|split; [|split; [|split; [|split]]]].
  - intros ->. reflexivity.
  - intros editor Hvisible ->.
    rewrite bool_decide_eq_false_2; [reflexivity|].
    intros Hlen. apply Hvisible. now destruct visibleTextEditors.
  - intros before editor after -> -> Hsel Hbefore.
    rewrite bool_decide_eq_false_2 by (rewrite length_app; simpl; lia).
    apply find_first; [now rewrite Hsel|].
    eapply Forall_impl; [exact Hbefore|]. intros e ->. reflexivity.
  - intros -> Hall. destruct (bool_decide _); [reflexivity|].
    apply find_none. eapply Forall_impl; [exact Hall|]. intros e ->. reflexivity.
  - intros editor Hsome.
    destruct visibleTextEditors as [|e visible] eqn:Hvisible; [discriminate|].
    split; [discriminate|].
    rewrite bool_decide_eq_false_2 in Hsome by discriminate.
    destruct activeTextEditor as [active|]; [left; congruence|right].
    split; [reflexivity|].
    clear Hvisible. revert Hsome. generalize (e :: visible). intros l.
    induction l as [|x l IH]; intros Hfind; [discriminate|]. simpl in Hfind.
    destruct (selectionIsEmpty x) eqn:Hx; simpl in Hfind.
    + destruct (IH Hfind) as (before & after & -> & Hsel & Hall).
      exists (x :: before), after. repeat split; [assumption|by constructor].
    + inversion Hfind; subst. exists [], l. repeat split; [assumption|constructor].
  - intros range.
    destruct (bool_decide _); [reflexivity|].
    destruct activeTextEditor; [reflexivity|].
    now destruct (List.find _ _).
Qed.

End WithWindow.

Lemma List_filter_sublist {A} (p : A -> bool) (l : list A) :
  List.filter p l `sublist_of` l.
Proof.
  induction l as [|x l IH]; simpl; [constructor|].
  destruct (p x); [now apply sublist_skip|now apply sublist_cons].
Qed.

Section WithDirectories.
Context `{Directories} `{Prompt}.

(** X21.  [getFilesFromDir] never rejects (a failing [readDirectory] gives
    the empty list); what it returns is a sub-listing of the directory, in
    order, without directories and without names starting with a dot; and
    with [testFilesOnly] it returns the entries of the plain listing that
    [isValidTestFileName] accepts. *)
Theorem getFilesFromDir_filters (dirUri : URI) :
  exists files tests,
    getFilesFromDir dirUri false = Ok files
    /\ getFilesFromDir dirUri true = Ok tests
    /\ tests = List.filter (fun file => isValidTestFileName file.1) files
    /\ (forall file, file ∈ files ->
          file.2 <> Directory /\ Str.startsWith file.1 "." = false)
    /\ (forall listing, readDirectory dirUri = Ok listing -> files `sublist_of` listing)
    /\ (isOk (readDirectory dirUri) = false -> files = [] /\ tests = []).
Proof.
  unfold getFilesFromDir.
  destruct (readDirectory dirUri) as [listing|e]; simpl.
  - eexists _, _. split; [reflexivity|]. split; [reflexivity|].
    split; [|split; [|split]].
    + induction listing as [|[name type] listing IH]; [reflexivity|]. simpl.
      destruct (negb (isDirectoryType type) && negb (Str.startsWith name ".")); simpl;
        [|exact IH].
      destruct (isValidTestFileName name); simpl; now rewrite IH.
    + intros file Hin.
      apply list_elem_of_In, filter_In in Hin as [_ Hkeep]. simpl in Hkeep.
      apply andb_true_iff in Hkeep as [Hdir Hdot].
      apply negb_true_iff in Hdir. apply negb_true_iff in Hdot.
      split; [|exact Hdot].
      intros Htype. rewrite Htype in Hdir. discriminate.
    + intros listing' Heq. inversion Heq; subst. apply List_filter_sublist.
    + discriminate.
  - exists [], []. split; [reflexivity|]. split; [reflexivity|]. split; [reflexivity|].
    split; [intros file Hin; inversion Hin|]. split; [discriminate|]. now split.
Qed.

End WithDirectories.

Section WithCommands.
Context `{Commands}.

Lemma find_app {A} (p : A -> bool) (l1 l2 : list A) :
  List.find p (l1 ++ l2)
  = match List.find p l1 with
    | Some x => Some x
    | None => List.find p l2
    end.
Proof.
  induction l1 as [|x l1 IH]; simpl; [reflexivity|]. destruct (p x); [reflexivity|exact IH].
Qed.

Lemma findLast_last_filter {A} (p : A -> bool) (l : list A) :
  findLast l p = last (List.filter p l).
Proof.
  unfold findLast. induction l as [|x l IH]; [reflexivity|].
  simpl. rewrite find_app, IH. simpl.
  destruct (p x); [|now destruct (last (List.filter p l))].
  rewrite last_cons. now destruct (last (List.filter p l)).
Qed.

(** X22.  For a [type] other than ['all'] (an omitted [type] counts as
    ['comment']), [getFoldingRanges] returns the ranges of that kind in
    provider order, and with [getLastItem] the list holding just the last
    of them, or the empty list when there is none.  When the provider
    resolves to [undefined] the list form is [undefined] while the
    last-item form is the empty list. *)
Theorem getFoldingRanges_last_item (uri : URI) (type : option RangeType)
    (Hkind : type <> Some all) :
  (forall ranges,
     executeFoldingRangeProvider uri = Ok (Some ranges) ->
     getFoldingRanges uri type None
     = Ok (Some (List.filter (hasKind (kindOf type)) ranges))
     /\ getFoldingRanges uri type (Some true)
        = Ok (Some (option_list (last (List.filter (hasKind (kindOf type)) ranges)))))
  /\ (executeFoldingRangeProvider uri = Ok None ->
      getFoldingRanges uri type None = Ok None
      /\ getFoldingRanges uri type (Some true) = Ok (Some []))
  /\ (forall e getLastItem,
        executeFoldingRangeProvider uri = Err e ->
        getFoldingRanges uri type getLastItem = Err e).
Proof.
  unfold getFoldingRanges. split; [|split].
  - intros ranges ->. simpl.
    destruct type as [[]|]; try contradiction; simpl;
      rewrite findLast_last_filter;
      (split; [reflexivity|]);
      now destruct (last (List.filter _ ranges)).
  - intros ->. simpl. destruct type as [[]|]; try contradiction; split; reflexivity.
  - intros e getLastItem ->. reflexivity.
Qed.

End WithCommands.

End EditorFacts.

(** * The further properties on the examples *)

Module SampleFacts.
Import Interaction Turn Helpers Editor Samples.
Import TurnFacts ScanFacts PatternFacts EditorFacts.

(** Witness of X2. *)
Lemma filterIgnored_removes_pairs_witness :
  Forall (fun p => speaker p.2 = assistant) [secretPair; mainPair]
  /\ @filterIgnored secretsIgnored (interleave [secretPair; mainPair]) = interleave [mainPair].
Proof.
  split; [repeat constructor|].
  rewrite (@filterIgnored_removes_pairs secretsIgnored [secretPair; mainPair]);
    [reflexivity|repeat constructor].
Defined.

(** Witness of X3: the fragment after the ignored one is a human fragment of
    a file that is not ignored, and is dropped. *)
Lemma filterIgnored_skips_next_witness :
  @ignoredMessage secretsIgnored (embedded (Some "repo") "secrets/key.pem") = true
  /\ @ignoredMessage secretsIgnored (embedded (Some "repo") "src/main.ts") = false
  /\ @filterIgnored secretsIgnored
       [embedded (Some "repo") "secrets/key.pem"; embedded (Some "repo") "src/main.ts"; ack]
     = @filterIgnored secretsIgnored [ack].
Proof.
  split; [reflexivity|]. split; [reflexivity|].
  apply (@filterIgnored_skips_next secretsIgnored). reflexivity.
Defined.

(** Witness of X4: a context of one ignored pair has no context. *)
Lemma hasContext_agrees_with_getFullContext_witness :
  fullContext (turn ignoredPair) = Ok ignoredPair
  /\ fst (@hasContext envFilesIgnored (turn ignoredPair)) = Ok false.
Proof.
  split; [reflexivity|].
  apply (@hasContext_agrees_with_getFullContext envFilesIgnored (turn ignoredPair) ignoredPair).
  reflexivity.
Defined.

(** Witness of X5. *)
Lemma rejected_context_propagates_witness :
  fullContext rejected = Err "context unavailable"
  /\ @getFullContext envFilesIgnored rejected = (Err "context unavailable", rejected)
  /\ toJSON rejected = Err "context unavailable".
Proof.
  split; [reflexivity|].
  destruct (@rejected_context_propagates envFilesIgnored rejected "context unavailable" eq_refl)
    as (Hget & _ & _ & Hjson).
  split; assumption.
Defined.

(** Witness of X6. *)
Lemma toChat_carries_used_context_witness :
  existsb setsUsedContext [CallGetFullContext; CallSetMetadata "m1"] = false
  /\ contextFiles
     <$> toChat (@afterAll envFilesIgnored [CallGetFullContext; CallSetMetadata "m1"]
                   (setUsedContext [mainFile] [] (turn allowedPair)))
     = [[mainFile]; [mainFile]].
Proof.
  split; [reflexivity|].
  rewrite (@toChat_carries_used_context envFilesIgnored (turn allowedPair) [mainFile] []
             [CallGetFullContext; CallSetMetadata "m1"] eq_refl).
  reflexivity.
Defined.

(** Witness of X7: the message given to [setAssistantMessage] came with the
    metadata ["draft"]. *)
Lemma metadata_stamped_witness :
  existsb setsMetadata [CallSetAssistantMessage revised; CallHasContext] = false
  /\ msgMetadata revised = Some "draft"
  /\ msgMetadata (getAssistantMessage
       (@afterAll envFilesIgnored [CallSetAssistantMessage revised; CallHasContext]
          (setMetadata "m1" (turn allowedPair)))) = Some "m1".
Proof.
  split; [reflexivity|]. split; [reflexivity|].
  apply (@metadata_stamped envFilesIgnored (turn allowedPair) "m1"
           [CallSetAssistantMessage revised; CallHasContext] eq_refl).
Defined.

(** Witness of X10. *)
Lemma current_file_not_scanned_witness :
  @getCurrentDirFilteredContext Disk.quick Disk.prompt Disk.src
     (Disk.entry <$> ["foo.ts"; "bar.ts"]) "foo.ts" 5
  = Ok (@fragmentsOf Disk.quick Disk.prompt Disk.src (Disk.entry "bar.ts"))
  /\ exists kept,
       kept `sublist_of` (Disk.entry <$> ["foo.ts"; "bar.ts"])
       /\ @fragmentsOf Disk.quick Disk.prompt Disk.src (Disk.entry "bar.ts")
          = flat_map (@fragmentsOf Disk.quick Disk.prompt Disk.src) kept
       /\ forall file, file ∈ kept -> file.1 <> "foo.ts".
Proof.
  split; [vm_compute; reflexivity|].
  apply (@current_file_not_scanned Disk.quick Disk.prompt Disk.src
           (Disk.entry <$> ["foo.ts"; "bar.ts"]) "foo.ts" 5).
  vm_compute. reflexivity.
Defined.


(** Witness of X12: for the current file [.env] the scan of [bar.ts],
    [zzz.ts] returns after [bar.ts]. *)
Lemma scan_stops_after_first_read_witness :
  fileNameWithoutExtOf ".env" = ""
  /\ @getCurrentDirFilteredContext Disk.quick Disk.prompt Disk.src
       (Disk.entry <$> ["bar.ts"; "zzz.ts"]) ".env" 5
     = Ok (@fragmentsOf Disk.quick Disk.prompt Disk.src (Disk.entry "bar.ts"))
  /\ (length (@fragmentsOf Disk.quick Disk.prompt Disk.src (Disk.entry "bar.ts")) <= 2)%nat.
Proof.
  split; [reflexivity|]. split; [vm_compute; reflexivity|].
  apply (@scan_stops_after_first_read Disk.quick Disk.prompt Disk.src
           (Disk.entry <$> ["bar.ts"; "zzz.ts"]) ".env" 5); [right; reflexivity|].
  vm_compute. reflexivity.
Defined.

(** Witness of X13: [locked.ts] cannot be read and still gets its pair. *)
Lemma getContextMessageFromFiles_one_pair_each_witness :
  isOk (@readFile Disk.quick {| fsPath := "/repo/src/locked.ts" |}) = false
  /\ @contentOrEmpty Disk.quick "/repo/src/locked.ts" = ""
  /\ exists msgs,
       @getContextMessageFromFiles Disk.quick Disk.prompt
         [ {| fsPath := "/repo/src/locked.ts" |}; {| fsPath := "/repo/src/bar.ts" |} ] = Ok msgs
       /\ length msgs = 4%nat.
Proof.
  split; [reflexivity|].
  destruct (@getContextMessageFromFiles_one_pair_each Disk.quick Disk.prompt
              [ {| fsPath := "/repo/src/locked.ts" |}; {| fsPath := "/repo/src/bar.ts" |} ])
    as (msgs & Hrun & _ & Hlen & Hempty).
  split; [apply (Hempty {| fsPath := "/repo/src/locked.ts" |}); reflexivity|].
  exists msgs. split; assumption.
Defined.

(** Witness of X14: on the slow workspace the search is cancelled and no
    current test file is reported. *)
Lemma getCurrentTestFileContext_at_most_one_witness :
  exists msgs,
    @getCurrentTestFileContext Disk.slow Disk.prompt "bar.ts" false = Ok msgs
    /\ (msgs = []
        \/ exists found testFile,
             @findVSCodeFiles Disk.slow (createVSCodeTestSearchPattern "bar.ts" None)
               (testExcludePattern false) 5 = Ok found
             /\ testFile ∈ found
             /\ @isValidTestFileName Disk.prompt (fsPath testFile) = true
             /\ msgs = @createFileContextResponseMessage Disk.slow Disk.prompt
                         (@contentOrEmpty Disk.slow (fsPath testFile)) (fsPath testFile)).
Proof.
  destruct (@getCurrentTestFileContext_at_most_one Disk.slow Disk.prompt "bar.ts" false)
    as (msgs & Hrun & Hshape & _).
  exists msgs. split; assumption.
Defined.

(** Witness of X16. *)
Lemma test_pattern_matches_every_convention_witness :
  Path.lastSegment "src/bar.ts" = Str.chars "bar" ++ "."%char :: Str.chars "ts"
  /\ Str.chars "bar.test.ts" ∈ testNames (Str.chars "bar") (Str.chars "ts")
  /\ namedFile "src/util/bar.test.ts" (Str.chars "bar.test.ts")
  /\ Glob.matches (createVSCodeTestSearchPattern "src/bar.ts" None) "src/util/bar.test.ts" = true.
Proof.
  assert (Hin : Str.chars "bar.test.ts" ∈ testNames (Str.chars "bar") (Str.chars "ts")).
  { unfold testNames. do 3 apply list_elem_of_further. apply list_elem_of_here. }
  split; [reflexivity|]. split; [exact Hin|]. split; [reflexivity|].
  apply (test_pattern_matches_every_convention "src/bar.ts" (Str.chars "bar") (Str.chars "ts")
           (Str.chars "bar.test.ts") "src/util/bar.test.ts");
    try reflexivity; try discriminate; try (split; reflexivity); exact Hin.
Defined.

(** Witness of X17. *)
Lemma all_tests_pattern_matches_witness :
  namedFile "e2e/mytesting.ts"
    (Str.chars "my" ++ Str.chars "test" ++ Str.chars "ing" ++ "."%char :: Str.chars "ts")
  /\ Glob.matches (createVSCodeTestSearchPattern "src/bar.ts" (Some true)) "e2e/mytesting.ts"
     = true.
Proof.
  split; [reflexivity|].
  apply (all_tests_pattern_matches "src/bar.ts" (Str.chars "bar") (Str.chars "ts")
           (Str.chars "my") (Str.chars "ing") "e2e/mytesting.ts");
    try reflexivity; try discriminate; split; reflexivity.
Defined.

(** Witness of X18. *)
Lemma search_pattern_of_simple_name_witness :
  createVSCodeSearchPattern "src/bar.ts" (Some true) = "**/*bar*.ts"
  /\ createVSCodeSearchPattern "src/bar.ts" None = "/*bar*.ts"
  /\ Glob.matches (createVSCodeSearchPattern "src/bar.ts" (Some true)) "src/bar.test.ts" = true.
Proof.
  destruct (search_pattern_of_simple_name "src/bar.ts" (Str.chars "bar") (Str.chars "ts"))
    as [Hpattern Hmatches]; try reflexivity; try discriminate.
  split; [exact (Hpattern (Some true))|]. split; [exact (Hpattern None)|].
  apply (Hmatches (conj eq_refl eq_refl) (conj eq_refl eq_refl) []
           (Str.chars ".test") "src/bar.test.ts").
  reflexivity.
Defined.

(** Witness of X19. *)
Lemma unit_test_search_excludes_witness :
  @getCodebaseTestFilesContext Disk.quick Disk.prompt "bar.ts" true
  = Ok (@createFileContextResponseMessage Disk.quick Disk.prompt "test(foo)"
          "/repo/src/foo.test.ts"
        ++ @createFileContextResponseMessage Disk.quick Disk.prompt "test(bar)"
             "/repo/src/bar.test.ts")
  /\ ~ insideNonUnitDirectory "src/foo.test.ts".
Proof.
  split; [vm_compute; reflexivity|].
  apply (@unit_test_search_excludes Disk.quick Disk.prompt
           (HelpersFacts.disk_honours_exclude Disk.files 1000) "bar.ts"
           (@createFileContextResponseMessage Disk.quick Disk.prompt "test(foo)"
              "/repo/src/foo.test.ts"
            ++ @createFileContextResponseMessage Disk.quick Disk.prompt "test(bar)"
                 "/repo/src/bar.test.ts")
           {| speaker := human;
              text := @populateCodeContextTemplate Disk.prompt
                        (@truncateText Disk.prompt "test(foo)" 1000) "src/foo.test.ts";
              file := Some (fileNamed "src/foo.test.ts") |}
           (fileNamed "src/foo.test.ts")).
  - left. vm_compute. reflexivity.
  - apply list_elem_of_here.
  - reflexivity.
Defined.

(** Witness of X20: with the chat panel focused, the editor holding a
    selection is the current one. *)
Lemma active_editor_among_visible_witness :
  @activeTextEditor chatFocused = None
  /\ @visibleTextEditors chatFocused = [idle] ++ selecting :: []
  /\ selectionIsEmpty selecting = false
  /\ Forall (fun e => selectionIsEmpty e = true) [idle]
  /\ @getActiveEditorFromVisibleEditors chatFocused = Some selecting
  /\ @getCurrentVSCodeDocText chatFocused None = "picked".
Proof.
  split; [reflexivity|]. split; [reflexivity|]. split; [reflexivity|].
  split; [repeat constructor|].
  destruct (@active_editor_among_visible chatFocused) as (_ & _ & Hfirst & _ & _ & Htext).
  assert (Hget : @getActiveEditorFromVisibleEditors chatFocused = Some selecting).
  { apply (Hfirst [idle] selecting []); try reflexivity. repeat constructor. }
  split; [exact Hget|].
  rewrite Htext, Hget. reflexivity.
Defined.

(** Witness of X21. *)
Lemma getFilesFromDir_filters_witness :
  @getFilesFromDir listed Disk.prompt Disk.src false = Ok [("bar.ts", File); ("bar.test.ts", File)]
  /\ @getFilesFromDir listed Disk.prompt Disk.src true = Ok [("bar.test.ts", File)]
  /\ exists files tests,
       @getFilesFromDir listed Disk.prompt Disk.src false = Ok files
       /\ @getFilesFromDir listed Disk.prompt Disk.src true = Ok tests
       /\ tests = List.filter (fun file => @isValidTestFileName Disk.prompt file.1) files.
Proof.
  split; [vm_compute; reflexivity|]. split; [vm_compute; reflexivity|].
  destruct (@getFilesFromDir_filters listed Disk.prompt Disk.src)
    as (files & tests & Hfiles & Htests & Heq & _).
  exists files, tests. repeat split; assumption.
Defined.

(** Witness of X22: the last import range of [bar.ts]. *)
Lemma getFoldingRanges_last_item_witness :
  Some imports <> Some all
  /\ @getFoldingRanges provider {| fsPath := "/repo/src/bar.ts" |} (Some imports) None
     = Ok (Some [imported; imported'])
  /\ @getFoldingRanges provider {| fsPath := "/repo/src/bar.ts" |} (Some imports) (Some true)
     = Ok (Some [imported']).
Proof.
  split; [discriminate|].
  destruct (@getFoldingRanges_last_item provider {| fsPath := "/repo/src/bar.ts" |}
              (Some imports) ltac:(discriminate)) as (Hsome & _ & _).
  destruct (Hsome [header; imported; block; imported'] eq_refl) as [Hlist Hlast].
  split; [exact Hlist|exact Hlast].
Defined.

End SampleFacts.
